(** * Job matcher: the scoring engine and the ranking pipeline

    A shallow embedding of [job_matcher/core/models.py] and
    [job_matcher/core/matcher.py], and the properties of the scoring engine
    ([JobMatcher.match_job]) and of the ranking pipeline
    ([JobMatcher.rank_jobs]).

    Conventions of the embedding.
    - Python numbers ([int] and [float]) that carry scores are exact
      rationals ([Q]); an equality "within floating-point tolerance" is an
      exact equality ([==]) here.
    - Python [str] is [string]: ASCII text.  Bytes above 127 are caseless,
      are not digits and are not white space.
    - An exception is a value: fallible code returns [result].
    - [datetime.now()] is an explicit argument [now] of every function that
      reads the clock; one scoring call sees one reading of the clock. *)

From Stdlib Require Import ZArith QArith Qminmax Lqa Lia Bool List.
From Stdlib Require Import Ascii String.
From Stdlib Require Import Sorting.Sorted Sorting.Permutation.
Import ListNotations.

Open Scope string_scope.
Open Scope Q_scope.

(** ** Python values *)

Module Py.

(** *** Exceptions *)

Inductive exn : Type :=
| ZeroDivisionError.

Inductive result (A : Type) : Type :=
| Ok (a : A)
| Raise (e : exn).

Arguments Ok {A} a.
Arguments Raise {A} e.

Definition bind {A B : Type} (m : result A) (k : A -> result B) : result B :=
  match m with
  | Ok a => k a
  | Raise e => Raise e
  end.

Fixpoint mapM {A B : Type} (f : A -> result B) (l : list A) : result (list B) :=
  match l with
  | [] => Ok []
  | x :: r =>
      bind (f x) (fun y => bind (mapM f r) (fun ys => Ok (y :: ys)))
  end.

(** *** Numbers *)

Definition Qleb (a b : Q) : bool := Qle_bool a b.
Definition Qltb (a b : Q) : bool := negb (Qle_bool b a).

(** [a / b]: raises on a zero divisor. *)
Definition pdiv (a b : Q) : result Q :=
  if Qeq_bool b 0 then Raise ZeroDivisionError else Ok (a / b).

(** [min(a, b)] and [max(a, b)] of two arguments: the first argument wins
    a tie. *)
Definition pmin (a b : Q) : Q := if Qltb b a then b else a.
Definition pmax (a b : Q) : Q := if Qltb a b then b else a.

(** [max(l)] of a non-empty list. *)
Fixpoint max_list (x : Q) (l : list Q) : Q :=
  match l with
  | [] => x
  | y :: r => max_list (pmax x y) r
  end.

(** [sum(l)]. *)
Fixpoint qsum (l : list Q) : Q :=
  match l with
  | [] => 0
  | x :: r => x + qsum r
  end.

Definition of_nat (n : nat) : Q := inject_Z (Z.of_nat n).

(** *** Truth value of an [Optional[int]]: [None] and [0] are false. *)

Definition truthy (o : option Z) : bool :=
  match o with
  | Some z => negb (z =? 0)%Z
  | None => false
  end.

(** [a or b]. *)
Definition or_else (a b : option Z) : option Z :=
  if truthy a then a else b.

(** [len(l) or 1]. *)
Definition len_or_1 {A : Type} (l : list A) : nat :=
  match List.length l with
  | O => 1%nat
  | n => n
  end.

(** *** Strings *)

Definition code (c : ascii) : N := N_of_ascii c.

Definition is_upper (c : ascii) : bool := ((65 <=? code c) && (code c <=? 90))%N.
Definition is_lower (c : ascii) : bool := ((97 <=? code c) && (code c <=? 122))%N.
Definition is_digit (c : ascii) : bool := ((48 <=? code c) && (code c <=? 57))%N.

(** [str.isspace] on one character: TAB..CR, FS..US and the space. *)
Definition is_space (c : ascii) : bool :=
  (((9 <=? code c) && (code c <=? 13)) || ((28 <=? code c) && (code c <=? 32)))%N.

Definition lower_char (c : ascii) : ascii :=
  if is_upper c then ascii_of_N (code c + 32) else c.
Definition upper_char (c : ascii) : ascii :=
  if is_lower c then ascii_of_N (code c - 32) else c.

(** [s.lower()] *)
Fixpoint lower (s : string) : string :=
  match s with
  | EmptyString => EmptyString
  | String c r => String (lower_char c) (lower r)
  end.

(** [s.title()]: a cased character is upper-cased when the character
    before it is not cased, and lower-cased otherwise. *)
Fixpoint title_from (prev_cased : bool) (s : string) : string :=
  match s with
  | EmptyString => EmptyString
  | String c r =>
      String (if prev_cased then lower_char c else upper_char c)
             (title_from (is_upper c || is_lower c) r)
  end.

Definition title (s : string) : string := title_from false s.

(** [not s] *)
Definition is_empty (s : string) : bool :=
  match s with
  | EmptyString => true
  | String _ _ => false
  end.

(** [a in b] on strings: [a] occurs in [b] as a substring. *)
Fixpoint str_in (a b : string) : bool :=
  match b with
  | EmptyString => String.prefix a EmptyString
  | String _ r => String.prefix a b || str_in a r
  end.

(** [x in l] on a list (or a set) of strings. *)
Definition mem (x : string) (l : list string) : bool :=
  existsb (String.eqb x) l.

(** [sep.join(l)] *)
Definition join (sep : string) (l : list string) : string :=
  String.concat sep l.

(** [s.replace(a, b)] for single characters [a] and [b]. *)
Fixpoint replace_char (a b : ascii) (s : string) : string :=
  match s with
  | EmptyString => EmptyString
  | String c r =>
      String (if Ascii.eqb c a then b else c) (replace_char a b r)
  end.

(** [s.split()]: the maximal runs of characters that are not white space.
    [word] is the run read so far. *)
Fixpoint split_from (word : string) (s : string) : list string :=
  match s with
  | EmptyString => if is_empty word then [] else [word]
  | String c r =>
      if is_space c
      then (if is_empty word then split_from EmptyString r
            else word :: split_from EmptyString r)
      else split_from (word ++ String c EmptyString) r
  end.

Definition split (s : string) : list string := split_from EmptyString s.

(** *** Sets of strings

    A [set] of strings is the list of its elements without repetition, in
    the order of first insertion.  (CPython iterates a set in an order that
    depends on the hashes of its elements; the order is fixed during one
    run of the interpreter.) *)

Fixpoint set_add (x : string) (s : list string) : list string :=
  match s with
  | [] => [x]
  | y :: r => if String.eqb x y then s else y :: set_add x r
  end.

(** [{x for x in l}] *)
Definition set_of (l : list string) : list string :=
  fold_left (fun s x => set_add x s) l [].

(** [a | b] *)
Definition set_union (a b : list string) : list string :=
  fold_left (fun s x => set_add x s) b a.

(** [a & b] *)
Definition set_inter (a b : list string) : list string :=
  filter (fun x => mem x b) a.

End Py.

Notation "x <- m ;; k" := (Py.bind m (fun x => k))
  (at level 61, m at next level, right associativity).

Import Py.

(** ** Regular expressions: the fragment of [re] the matcher uses

    Backtracking search with greedy quantifiers, under [re.IGNORECASE]. *)

Module Re.

Inductive regex : Type :=
| Lit (s : string)          (* literal text *)
| Digit                     (* \d *)
| Space                     (* \s *)
| Seq (r1 r2 : regex)
| Alt (r1 r2 : regex)       (* r1|r2 *)
| Opt (r : regex)           (* r? *)
| Star (r : regex)          (* r* *)
| Plus (r : regex).         (* r+ *)

Section Matcher.

Context {A : Type}.

(** The literal [l] at the head of [s], letter case ignored. *)
Fixpoint lit (l s : string) (k : string -> option A) : option A :=
  match l, s with
  | EmptyString, _ => k s
  | String a l', String c s' =>
      if Ascii.eqb (lower_char a) (lower_char c) then lit l' s' k else None
  | String _ _, EmptyString => None
  end.

Definition class (p : ascii -> bool) (s : string) (k : string -> option A)
  : option A :=
  match s with
  | String c s' => if p c then k s' else None
  | EmptyString => None
  end.

(** Greedy iteration of [step]: as many rounds as possible first, each
    round consuming input; [n] bounds the number of rounds. *)
Fixpoint star (n : nat) (step : string -> (string -> option A) -> option A)
  (s : string) (k : string -> option A) : option A :=
  match n with
  | O => k s
  | S n' =>
      match step s (fun s' =>
                      if (String.length s' <? String.length s)%nat
                      then star n' step s' k else None) with
      | Some a => Some a
      | None => k s
      end
  end.

(** [m r s k]: the ways [r] matches at the head of [s], in the order of
    the backtracking search; the first one that [k] accepts on the rest of
    the input wins. *)
Fixpoint m (r : regex) (s : string) (k : string -> option A) : option A :=
  match r with
  | Lit l => lit l s k
  | Digit => class is_digit s k
  | Space => class is_space s k
  | Seq r1 r2 => m r1 s (fun s1 => m r2 s1 k)
  | Alt r1 r2 =>
      match m r1 s k with
      | Some a => Some a
      | None => m r2 s k
      end
  | Opt r1 =>
      match m r1 s k with
      | Some a => Some a
      | None => k s
      end
  | Star r1 => star (String.length s) (m r1) s k
  | Plus r1 => m r1 s (fun s1 => star (String.length s1) (m r1) s1 k)
  end.

End Matcher.

(** The regular expressions of a list, one after the other. *)
Fixpoint cat (l : list regex) : regex :=
  match l with
  | [] => Lit EmptyString
  | [r] => r
  | r :: l' => Seq r (cat l')
  end.

(** A pattern with one capturing group: [pre (grp) post]. *)
Record pattern : Type := mkPattern {
  pre : regex;
  grp : regex;
  post : regex
}.

(** The first [n] characters of [s]. *)
Definition take (n : nat) (s : string) : string := String.substring 0 n s.

(** The pattern at the head of [s]: the text of group 1. *)
Definition match_here (p : pattern) (s : string) : option string :=
  m (pre p) s (fun s1 =>
    m (grp p) s1 (fun s2 =>
      m (post p) s2 (fun _ =>
        Some (take (String.length s1 - String.length s2) s1)))).

(** [re.search(p, s, re.IGNORECASE).group(1)]: the leftmost match. *)
Fixpoint search (p : pattern) (s : string) : option string :=
  match match_here p s with
  | Some g => Some g
  | None =>
      match s with
      | EmptyString => None
      | String _ r => search p r
      end
  end.

End Re.

(** [float(s)] of a string of decimal digits. *)
Fixpoint digits_value (acc : N) (s : string) : N :=
  match s with
  | EmptyString => acc
  | String c r => digits_value (acc * 10 + (code c - 48))%N r
  end.

Definition float_of_digits (s : string) : Q :=
  inject_Z (Z.of_N (digits_value 0 s)).

(** ** The data model ([core/models.py]) *)

(** A naive [datetime]: microseconds since the epoch. *)
Definition datetime : Type := Z.

Definition microseconds_per_day : Z := 86400000000.

(** [(a - b).days]: a [timedelta] is normalised with a non-negative time of
    day, so its [days] is the floor of the difference. *)
Definition timedelta_days (a b : datetime) : Z :=
  ((a - b) / microseconds_per_day)%Z.

Inductive SkillLevel : Type :=
| BEGINNER | INTERMEDIATE | ADVANCED | EXPERT.

Inductive JobType : Type :=
| FULL_TIME | PART_TIME | CONTRACT | FREELANCE | INTERNSHIP | REMOTE
| HYBRID | ON_SITE.

Module Skill.
Record t : Type := mk {
  name : string;
  level : SkillLevel;
  years_experience : Q;
  keywords : list string
}.
(** [Skill(name)] *)
Definition named (n : string) : t := mk n INTERMEDIATE 0 [].
End Skill.

Module Experience.
Record t : Type := mk {
  title : string;
  company : string;
  start_date : datetime;
  end_date : option datetime;
  description : string;
  achievements : list string;
  skills_used : list string;
  location : string;
  is_current : bool
}.

(** The property [duration_years]; a [datetime] is always true, so
    [self.end_date or datetime.now()] reads the clock exactly when there is
    no end date. *)
Definition duration_years (now : datetime) (e : t) : Q :=
  let end_ := match end_date e with
              | Some d => d
              | None => now
              end in
  inject_Z (timedelta_days end_ (start_date e)) / (36525 # 100).
End Experience.

Module Education.
Record t : Type := mk {
  institution : string;
  degree : string;
  field_of_study : string;
  graduation_date : option datetime;
  gpa : option Q;
  honors : list string;
  relevant_coursework : list string
}.
End Education.

Module UserProfile.
Record t : Type := mk {
  id : string;
  full_name : string;
  email : string;
  phone : string;
  location : string;
  linkedin_url : string;
  github_url : string;
  portfolio_url : string;
  summary : string;
  skills : list Skill.t;
  experiences : list Experience.t;
  education : list Education.t;
  certifications : list string;
  languages : list string;
  desired_roles : list string;
  desired_locations : list string;
  min_salary : option Z;
  max_commute_minutes : option Z;
  remote_preference : string
}.

(** The property [total_experience_years]. *)
Definition total_experience_years (now : datetime) (p : t) : Q :=
  qsum (map (Experience.duration_years now) (experiences p)).

(** A profile with the given fields and the defaults of the dataclass for
    the others ([ident] stands for the generated identifier). *)
Definition candidate (ident : string) (loc : string) (sk : list Skill.t)
  (ex : list Experience.t) (ed : list Education.t) (wanted : list string)
  (salary : option Z) (remote : string) : t :=
  mk ident "" "" "" loc "" "" "" "" sk ex ed [] [] [] wanted salary None remote.
End UserProfile.

Module Job.
Record t : Type := mk {
  id : string;
  title : string;
  company : string;
  location : string;
  description : string;
  requirements : list string;
  required_skills : list string;
  preferred_skills : list string;
  salary_min : option Z;
  salary_max : option Z;
  job_type : JobType;
  remote_option : bool;
  posted_date : option datetime;
  application_deadline : option datetime;
  source : string;
  source_url : string;
  company_size : string;
  industry : string;
  experience_level : string;
  benefits : list string
}.

(** A posting with the given fields and the defaults of the dataclass for
    the others ([ident] stands for the generated identifier). *)
Definition posting (ident : string) (loc descr : string)
  (reqs required preferred : list string) (smin smax : option Z)
  (remote : bool) (level : string) : t :=
  mk ident "" "" loc descr reqs required preferred smin smax FULL_TIME remote
     None None "" "" "" "" level [].
End Job.

Module MatchScore.
Record t : Type := mk {
  overall_score : Q;
  skill_match_score : Q;
  experience_match_score : Q;
  education_match_score : Q;
  location_match_score : Q;
  salary_match_score : Q;
  culture_fit_score : Q;
  hiring_likelihood : Q;
  compensation_score : Q;
  matched_skills : list string;
  missing_skills : list string;
  bonus_skills : list string
}.

(** [MatchScore()] *)
Definition default : t := mk 0 0 0 0 0 0 0 0 0 [] [] [].

(** Assignments to the attributes of a score. *)
Definition set_overall_score (v : Q) (s : t) : t :=
  mk v (skill_match_score s) (experience_match_score s)
     (education_match_score s) (location_match_score s)
     (salary_match_score s) (culture_fit_score s) (hiring_likelihood s)
     (compensation_score s) (matched_skills s) (missing_skills s)
     (bonus_skills s).
Definition set_skill_match_score (v : Q) (s : t) : t :=
  mk (overall_score s) v (experience_match_score s)
     (education_match_score s) (location_match_score s)
     (salary_match_score s) (culture_fit_score s) (hiring_likelihood s)
     (compensation_score s) (matched_skills s) (missing_skills s)
     (bonus_skills s).
Definition set_experience_match_score (v : Q) (s : t) : t :=
  mk (overall_score s) (skill_match_score s) v
     (education_match_score s) (location_match_score s)
     (salary_match_score s) (culture_fit_score s) (hiring_likelihood s)
     (compensation_score s) (matched_skills s) (missing_skills s)
     (bonus_skills s).
Definition set_education_match_score (v : Q) (s : t) : t :=
  mk (overall_score s) (skill_match_score s) (experience_match_score s)
     v (location_match_score s)
     (salary_match_score s) (culture_fit_score s) (hiring_likelihood s)
     (compensation_score s) (matched_skills s) (missing_skills s)
     (bonus_skills s).
Definition set_location_match_score (v : Q) (s : t) : t :=
  mk (overall_score s) (skill_match_score s) (experience_match_score s)
     (education_match_score s) v
     (salary_match_score s) (culture_fit_score s) (hiring_likelihood s)
     (compensation_score s) (matched_skills s) (missing_skills s)
     (bonus_skills s).
Definition set_salary_match_score (v : Q) (s : t) : t :=
  mk (overall_score s) (skill_match_score s) (experience_match_score s)
     (education_match_score s) (location_match_score s)
     v (culture_fit_score s) (hiring_likelihood s)
     (compensation_score s) (matched_skills s) (missing_skills s)
     (bonus_skills s).
Definition set_hiring_likelihood (v : Q) (s : t) : t :=
  mk (overall_score s) (skill_match_score s) (experience_match_score s)
     (education_match_score s) (location_match_score s)
     (salary_match_score s) (culture_fit_score s) v
     (compensation_score s) (matched_skills s) (missing_skills s)
     (bonus_skills s).
Definition set_compensation_score (v : Q) (s : t) : t :=
  mk (overall_score s) (skill_match_score s) (experience_match_score s)
     (education_match_score s) (location_match_score s)
     (salary_match_score s) (culture_fit_score s) (hiring_likelihood s)
     v (matched_skills s) (missing_skills s)
     (bonus_skills s).
Definition set_skill_lists (matched missing bonus : list string) (s : t) : t :=
  mk (overall_score s) (skill_match_score s) (experience_match_score s)
     (education_match_score s) (location_match_score s)
     (salary_match_score s) (culture_fit_score s) (hiring_likelihood s)
     (compensation_score s) matched missing bonus.
End MatchScore.

(** ** The scoring engine ([core/matcher.py], class [JobMatcher]) *)

Module JobMatcher.

(** Weights for the overall score. *)
Definition WEIGHTS : list (string * Q) :=
  [ ("skill_match", 35 # 100);
    ("experience_match", 20 # 100);
    ("education_match", 10 # 100);
    ("location_match", 15 # 100);
    ("salary_match", 20 # 100) ].

(** [d[k]] for a key [k] of the table [d]. *)
Definition item (d : list (string * Q)) (k : string) : Q :=
  match find (fun e => String.eqb (fst e) k) d with
  | Some e => snd e
  | None => 0
  end.

(** The table of [_skills_match]: a base name and its variants. *)
Definition variations : list (string * list string) :=
  [ ("javascript", ["js"; "ecmascript"]);
    ("typescript", ["ts"]);
    ("python", ["py"]);
    ("kubernetes", ["k8s"]);
    ("postgresql", ["postgres"; "psql"]);
    ("mongodb", ["mongo"]);
    ("react", ["reactjs"; "react.js"]);
    ("node.js", ["nodejs"; "node"]);
    ("machine learning", ["ml"]);
    ("artificial intelligence", ["ai"]);
    ("amazon web services", ["aws"]);
    ("google cloud platform", ["gcp"]);
    ("continuous integration", ["ci"]);
    ("continuous deployment", ["cd"]);
    ("ci/cd", ["cicd"; "ci cd"]) ].

(** One round of the loop over [variations.items()]. *)
Definition variant_hit (skill1 skill2 : string) (e : string * list string)
  : bool :=
  let base := fst e in
  let variants := snd e in
  (String.eqb skill1 base && mem skill2 variants)
  || (String.eqb skill2 base && mem skill1 variants)
  || (mem skill1 variants && mem skill2 variants).

(** [_skills_match]: do two skill names match (variants included)? *)
Definition skills_match (skill1 skill2 : string) : bool :=
  if String.eqb skill1 skill2 then true
  else if existsb (variant_hit skill1 skill2) variations then true
  else if (3 <? String.length skill1)%nat && (3 <? String.length skill2)%nat
  then str_in skill1 skill2 || str_in skill2 skill1
  else false.

(** The four patterns of [_extract_required_years]. *)
Definition years_of : list Re.regex :=
  [ Re.Opt (Re.Lit "+"); Re.Star Re.Space; Re.Lit "year"; Re.Opt (Re.Lit "s");
    Re.Star Re.Space; Re.Opt (Re.Seq (Re.Lit "of") (Re.Plus Re.Space)) ].

Definition patterns : list Re.pattern :=
  [ (* (\d+)\+?\s*years?\s*(?:of\s+)?experience *)
    Re.mkPattern (Re.Lit "") (Re.Plus Re.Digit)
      (Re.cat (years_of ++ [Re.Lit "experience"]));
    (* (\d+)\+?\s*years?\s*(?:of\s+)?(?:relevant|professional) *)
    Re.mkPattern (Re.Lit "") (Re.Plus Re.Digit)
      (Re.cat (years_of ++ [Re.Alt (Re.Lit "relevant") (Re.Lit "professional")]));
    (* minimum\s+(\d+)\s*years? *)
    Re.mkPattern (Re.Seq (Re.Lit "minimum") (Re.Plus Re.Space))
      (Re.Plus Re.Digit)
      (Re.cat [Re.Star Re.Space; Re.Lit "year"; Re.Opt (Re.Lit "s")]);
    (* at\s+least\s+(\d+)\s*years? *)
    Re.mkPattern
      (Re.cat [Re.Lit "at"; Re.Plus Re.Space; Re.Lit "least"; Re.Plus Re.Space])
      (Re.Plus Re.Digit)
      (Re.cat [Re.Star Re.Space; Re.Lit "year"; Re.Opt (Re.Lit "s")]) ].

(** [f"{job.description} {' '.join(job.requirements)}"] *)
Definition job_text (job : Job.t) : string :=
  Job.description job ++ " " ++ join " " (Job.requirements job).

(** [_extract_required_years]: the first pattern that matches decides. *)
Fixpoint first_match (ps : list Re.pattern) (text : string) : option Q :=
  match ps with
  | [] => None
  | p :: ps' =>
      match Re.search p text with
      | Some g => Some (float_of_digits g)
      | None => first_match ps' text
      end
  end.

Definition extract_required_years (job : Job.t) : option Q :=
  first_match patterns (job_text job).

Definition level_years : list (string * Q) :=
  [ ("entry", 0); ("junior", 1); ("mid", 3); ("senior", 5); ("lead", 7);
    ("principal", 10); ("staff", 8); ("director", 10); ("executive", 15) ].

Definition degree_requirements : list (string * Q) :=
  [ ("phd", 100); ("doctorate", 100); ("master", 80); ("mba", 80);
    ("bachelor", 60); ("associate", 40); ("degree", 50) ].

Definition in_demand_skills : list string :=
  [ "python"; "javascript"; "aws"; "kubernetes"; "react";
    "machine learning"; "data science"; "golang"; "rust" ].

(** The value of an [Optional[int]] that is true. *)
Definition num_of (o : option Z) : Q :=
  match o with
  | Some z => inject_Z z
  | None => 0
  end.

Definition is_nil {A : Type} (l : list A) : bool :=
  match l with
  | [] => true
  | _ :: _ => false
  end.

Section Methods.

(** The clock, and [self.profile]. *)
Variable now : datetime.
Variable profile : UserProfile.t.

Definition user_skills_lower : list string :=
  set_of (map (fun s => lower (Skill.name s)) (UserProfile.skills profile)).

(** [_fuzzy_skill_match] *)
Definition fuzzy_round (desc_lower : string) (matches : Q) (skill : Skill.t)
  : Q :=
  if str_in (lower (Skill.name skill)) desc_lower then
    let matches := matches + 1 in
    match Skill.level skill with
    | EXPERT | ADVANCED => matches + (1 # 2)
    | _ => matches
    end
  else matches.

Definition fuzzy_skill_match (description : string) : result Q :=
  if is_empty description then Ok 50
  else
    let desc_lower := lower description in
    let total_skills := len_or_1 (UserProfile.skills profile) in
    let matches :=
      fold_left (fuzzy_round desc_lower) (UserProfile.skills profile) 0 in
    q <- pdiv matches (of_nat total_skills) ;;
    Ok (pmin 100 (q * 100)).

(** Does the profile have the job skill [s]? *)
Definition has_skill (s : string) : bool :=
  let s_lower := lower s in
  mem s_lower user_skills_lower
  || existsb (skills_match s_lower) user_skills_lower.

Definition matches_of (job_skills : list string) : nat :=
  List.length (filter has_skill job_skills).

(** [_calculate_skill_match] (the set [user_skill_keywords] that the source
    builds is never read) *)
Definition calculate_skill_match (job : Job.t) : result Q :=
  if is_nil (Job.required_skills job) && is_nil (Job.preferred_skills job)
  then fuzzy_skill_match (Job.description job)
  else
    let required_matches := matches_of (Job.required_skills job) in
    let preferred_matches := matches_of (Job.preferred_skills job) in
    let req_total := len_or_1 (Job.required_skills job) in
    let pref_total := len_or_1 (Job.preferred_skills job) in
    r <- pdiv (of_nat required_matches) (of_nat req_total) ;;
    let required_score := r * 70 in
    p <- pdiv (of_nat preferred_matches) (of_nat pref_total) ;;
    let preferred_score := p * 30 in
    Ok (pmin 100 (required_score + preferred_score)).

(** [_calculate_experience_match] *)
Definition calculate_experience_match (job : Job.t) : result Q :=
  let user_years := UserProfile.total_experience_years now profile in
  let required_years :=
    match extract_required_years job with
    | Some y => Some y
    | None =>
        option_map snd
          (find (fun e => str_in (fst e) (lower (Job.experience_level job)))
                level_years)
    end in
  let required_years :=
    match required_years with
    | Some y => y
    | None => 2
    end in
  score <-
    (if Qleb required_years user_years
     then Ok (if Qltb (required_years * (15 # 10)) user_years then 90 else 100)
     else (q <- pdiv user_years required_years ;; Ok (q * 80))) ;;
  Ok (pmax 0 (pmin 100 score)).

(** The level of the first degree keyword that occurs in [text]. *)
Definition degree_level (text : string) : option Q :=
  option_map snd (find (fun e => str_in (fst e) text) degree_requirements).

(** [_calculate_education_match] *)
Definition calculate_education_match (job : Job.t) : result Q :=
  if is_nil (UserProfile.education profile) then Ok 50
  else
    let text := lower (job_text job) in
    let required_level :=
      option_map snd
        (find (fun e => str_in (fst e) text
                        && (str_in "required" text || str_in "must have" text))
              degree_requirements) in
    match required_level with
    | None => Ok 80
    | Some required_level =>
        let user_degrees :=
          flat_map (fun edu =>
                      match degree_level (lower (Education.degree edu)) with
                      | Some level => [level]
                      | None => []
                      end)
                   (UserProfile.education profile) in
        match user_degrees with
        | [] => Ok 40
        | d :: ds =>
            let highest_user_degree := max_list d ds in
            if Qleb required_level highest_user_degree then Ok 100
            else (q <- pdiv highest_user_degree required_level ;; Ok (q * 80))
        end
    end.

(** [_calculate_location_match] *)
Definition location_parts (loc : string) : list string :=
  set_of (split (replace_char "," " " loc)).

Definition calculate_location_match (job : Job.t) : Q :=
  let pref := UserProfile.remote_preference profile in
  if Job.remote_option job then
    (if mem pref ["remote"; "flexible"] then 100 else 80)
  else if is_empty (Job.location job)
          || is_empty (UserProfile.location profile) then 70
  else
    let job_loc := lower (Job.location job) in
    let user_loc := lower (UserProfile.location profile) in
    let desired_locs := map lower (UserProfile.desired_locations profile) in
    if str_in user_loc job_loc || str_in job_loc user_loc then 100
    else if existsb (fun desired =>
                       str_in desired job_loc || str_in job_loc desired)
                    desired_locs then 100
    else
      let common := set_inter (location_parts user_loc)
                              (location_parts job_loc) in
      if negb (is_nil common) then 80
      else if String.eqb pref "remote" then 40
      else if String.eqb pref "flexible" then 60
      else 30.

(** [_calculate_salary_match] *)
Definition calculate_salary_match (job : Job.t) : result Q :=
  if negb (truthy (UserProfile.min_salary profile)) then Ok 70
  else if negb (truthy (Job.salary_min job))
          && negb (truthy (Job.salary_max job)) then Ok 60
  else
    let job_max := or_else (Job.salary_max job) (Job.salary_min job) in
    let job_min := or_else (Job.salary_min job) (Job.salary_max job) in
    let user_min := num_of (UserProfile.min_salary profile) in
    if truthy job_max && Qleb user_min (num_of job_max) then
      (if truthy job_min && Qleb user_min (num_of job_min)
       then Ok 100 else Ok 85)
    else if truthy job_max && Qleb (user_min * (9 # 10)) (num_of job_max)
    then Ok 70
    else if truthy job_max then
      (ratio <- pdiv (num_of job_max) user_min ;; Ok (pmax 0 (ratio * 60)))
    else Ok 50.

(** [_calculate_hiring_likelihood] *)
Definition calculate_hiring_likelihood (job : Job.t) (score : MatchScore.t)
  : Q :=
  let base_likelihood := MatchScore.overall_score score * (6 # 10) in
  let skill_factor := MatchScore.skill_match_score score * (25 # 100) in
  let exp_factor := MatchScore.experience_match_score score * (15 # 100) in
  let demand_bonus :=
    fold_left (fun bonus skill =>
                 if mem (lower (Skill.name skill)) in_demand_skills
                 then bonus + 2 else bonus)
              (UserProfile.skills profile) 0 in
  let demand_bonus := pmin 10 demand_bonus in
  let missing_penalty :=
    of_nat (List.length (MatchScore.missing_skills score)) * 3 in
  let missing_penalty := pmin 20 missing_penalty in
  let likelihood :=
    base_likelihood + skill_factor + exp_factor + demand_bonus
    - missing_penalty in
  pmax 5 (pmin 95 likelihood).

(** [_calculate_compensation_score] *)
Definition calculate_compensation_score (job : Job.t) : result Q :=
  if negb (truthy (Job.salary_max job)) && negb (truthy (Job.salary_min job))
  then Ok 50
  else
    let salary := num_of (or_else (Job.salary_max job) (Job.salary_min job)) in
    if truthy (UserProfile.min_salary profile) then
      ratio <- pdiv salary (num_of (UserProfile.min_salary profile)) ;;
      if Qleb (13 # 10) ratio then Ok 100
      else if Qleb (11 # 10) ratio then Ok 90
      else if Qleb 1 ratio then Ok 80
      else if Qleb (9 # 10) ratio then Ok 70
      else Ok (pmax 20 (ratio * 60))
    else if Qleb 200000 salary then Ok 95
    else if Qleb 150000 salary then Ok 85
    else if Qleb 120000 salary then Ok 75
    else if Qleb 90000 salary then Ok 65
    else if Qleb 60000 salary then Ok 50
    else Ok 40.

(** [_get_skill_details]: the matched, the missing and the bonus skills. *)
Definition get_skill_details (job : Job.t)
  : list string * list string * list string :=
  let user_skills := user_skills_lower in
  let required := set_of (map lower (Job.required_skills job)) in
  let preferred := set_of (map lower (Job.preferred_skills job)) in
  let all_job_skills := set_union required preferred in
  let used skill :=
    mem skill all_job_skills
    || existsb (skills_match skill) all_job_skills in
  let matched := map title (filter used user_skills) in
  let bonus := map title (filter (fun skill => negb (used skill)) user_skills) in
  let missing :=
    map title
        (filter (fun req =>
                   negb (mem req user_skills)
                   && negb (existsb (skills_match req) user_skills))
                required) in
  (matched, missing, bonus).

(** [match_job]: the attributes of a fresh [MatchScore] are assigned one
    after the other, in the order of the source. *)
Definition match_job (job : Job.t) : result MatchScore.t :=
  let score := MatchScore.default in
  v <- calculate_skill_match job ;;
  let score := MatchScore.set_skill_match_score v score in
  v <- calculate_experience_match job ;;
  let score := MatchScore.set_experience_match_score v score in
  v <- calculate_education_match job ;;
  let score := MatchScore.set_education_match_score v score in
  let score :=
    MatchScore.set_location_match_score (calculate_location_match job) score in
  v <- calculate_salary_match job ;;
  let score := MatchScore.set_salary_match_score v score in
  let score :=
    MatchScore.set_overall_score
      (MatchScore.skill_match_score score * item WEIGHTS "skill_match"
       + MatchScore.experience_match_score score * item WEIGHTS "experience_match"
       + MatchScore.education_match_score score * item WEIGHTS "education_match"
       + MatchScore.location_match_score score * item WEIGHTS "location_match"
       + MatchScore.salary_match_score score * item WEIGHTS "salary_match")
      score in
  let score :=
    MatchScore.set_hiring_likelihood (calculate_hiring_likelihood job score)
                                     score in
  v <- calculate_compensation_score job ;;
  let score := MatchScore.set_compensation_score v score in
  let '(matched, missing, bonus) := get_skill_details job in
  Ok (MatchScore.set_skill_lists matched missing bonus score).

(** [list.sort(key=key, reverse=True)]: descending and stable.  An element
    is put before the first one of the sorted rest whose key is not
    greater. *)
Fixpoint insert_desc {A : Type} (key : A -> Q) (x : A) (l : list A) : list A :=
  match l with
  | [] => [x]
  | y :: r =>
      if Qltb (key x) (key y) then y :: insert_desc key x r else x :: l
  end.

Fixpoint sort_reverse {A : Type} (key : A -> Q) (l : list A) : list A :=
  match l with
  | [] => []
  | x :: r => insert_desc key x (sort_reverse key r)
  end.

Definition scored_job : Type := (Job.t * MatchScore.t)%type.

Definition by_overall (x : scored_job) : Q :=
  MatchScore.overall_score (snd x).

Definition sort_keys : list (string * (scored_job -> Q)) :=
  [ ("overall", by_overall);
    ("hiring_likelihood", fun x => MatchScore.hiring_likelihood (snd x));
    ("compensation", fun x => MatchScore.compensation_score (snd x));
    ("skill_match", fun x => MatchScore.skill_match_score (snd x)) ].

(** [d.get(k, default)] *)
Definition get {V : Type} (d : list (string * V)) (k : string) (default : V)
  : V :=
  match find (fun e => String.eqb (fst e) k) d with
  | Some e => snd e
  | None => default
  end.

(** [rank_jobs] *)
Definition rank_jobs (jobs : list Job.t) (sort_by : string)
  : result (list scored_job) :=
  scored_jobs <- mapM (fun job => s <- match_job job ;; Ok (job, s)) jobs ;;
  let key_func := get sort_keys sort_by (get sort_keys "overall" by_overall) in
  Ok (sort_reverse key_func scored_jobs).

End Methods.

End JobMatcher.

Import JobMatcher.

(** ** Sequences and dictionaries *)

Module Seq.

(** [l[:n]]: the first [n] elements, or all but the last [-n] when [n] is
    negative. *)
Definition slice_to {A : Type} (n : Z) (l : list A) : list A :=
  if (0 <=? n)%Z then firstn (Z.to_nat n) l
  else firstn (List.length l - Z.to_nat (- n)) l.

(** [sorted(l, key=key, reverse=True)] *)
Definition sorted_reverse {A : Type} (key : A -> Q) (l : list A) : list A :=
  sort_reverse key l.

End Seq.

(** A [dict] with string keys: the items in the order of insertion. *)
Module Dict.

Section Dict.

Context {V : Type}.

Definition t : Type := list (string * V).

(** [d.get(k)] *)
Fixpoint get (d : t) (k : string) : option V :=
  match d with
  | [] => None
  | (k', v) :: r => if String.eqb k' k then Some v else get r k
  end.

(** [k in d] *)
Definition contains (d : t) (k : string) : bool :=
  match get d k with
  | Some _ => true
  | None => false
  end.

(** [d[k] = v]: a present key keeps its place, a new key comes last. *)
Fixpoint set (d : t) (k : string) (v : V) : t :=
  match d with
  | [] => [(k, v)]
  | (k', v') :: r =>
      if String.eqb k' k then (k', v) :: r else (k', v') :: set r k v
  end.

(** [del d[k]] *)
Definition del (d : t) (k : string) : t :=
  filter (fun e => negb (String.eqb (fst e) k)) d.

(** [d.values()] *)
Definition values (d : t) : list V := map snd d.

Definition keys (d : t) : list string := map fst d.

End Dict.

End Dict.

(** ** Job providers ([integrations/base.py], [integrations/aggregator.py]) *)

Module Provider.






(** The loop that keeps the first job of every key: [seen] is the set of
    the keys met so far. *)
Fixpoint unique_from (key : Job.t -> string) (seen : list string)
  (jobs : list Job.t) : list Job.t :=
  match jobs with
  | [] => []
  | job :: r =>
      if mem (key job) seen then unique_from key seen r
      else job :: unique_from key (set_add (key job) seen) r
  end.

(** [JobSearchProvider.search_for_profile], after the searches: the jobs
    are deduplicated by their identifier and cut at [limit]. *)
Definition unique_by_id (jobs : list Job.t) (limit : Z) : list Job.t :=
  Seq.slice_to limit (unique_from Job.id [] jobs).

(** [JobAggregator.search_jobs], after the searches: the jobs are
    deduplicated by title and company and cut at [limit]. *)
Definition title_company (job : Job.t) : string :=
  lower (Job.title job) ++ "_" ++ lower (Job.company job).

Definition unique_jobs (all_jobs : list Job.t) (limit : Z) : list Job.t :=
  Seq.slice_to limit (unique_from title_company [] all_jobs).

End Provider.

(** ** The command line ([cli.py]) *)

Module Cli.

Inductive failure : Type :=
| KeyError (key : string)
| Scoring (e : exn).

Inductive outcome : Type :=
| Shown (rows : list scored_job)
| Failed (f : failure).

Definition sort_map : list (string * string) :=
  [ ("overall", "overall");
    ("likelihood", "hiring_likelihood");
    ("compensation", "compensation") ].

(** [cmd_match], from the profile and the jobs on: the rows that are
    printed, [ranked[:args.top]]. *)
Definition cmd_match (now : datetime) (profile : UserProfile.t)
  (jobs : list Job.t) (sort : string) (top : Z) : outcome :=
  match Dict.get sort_map sort with
  | None => Failed (KeyError sort)
  | Some sort_by =>
      match rank_jobs now profile jobs sort_by with
      | Raise e => Failed (Scoring e)
      | Ok ranked => Shown (Seq.slice_to top ranked)
      end
  end.

End Cli.

(** ** Applications ([core/models.py]) and their tracker
    ([tracker/application_tracker.py])

    The tracker is its dictionary of applications; the files it writes and
    its log are outside the model.  An application is stored under its own
    identifier, and an update of a stored application is an update of the
    entry of the dictionary. *)

Inductive ApplicationStatus : Type :=
| IDENTIFIED | RESUME_GENERATED | COVER_LETTER_GENERATED | READY_TO_APPLY
| APPLIED | UNDER_REVIEW | INTERVIEW_SCHEDULED | REJECTED | OFFER_RECEIVED
| WITHDRAWN.

Module Status.

(** [status.value] *)
Definition value (s : ApplicationStatus) : string :=
  match s with
  | IDENTIFIED => "identified"
  | RESUME_GENERATED => "resume_generated"
  | COVER_LETTER_GENERATED => "cover_letter_generated"
  | READY_TO_APPLY => "ready_to_apply"
  | APPLIED => "applied"
  | UNDER_REVIEW => "under_review"
  | INTERVIEW_SCHEDULED => "interview_scheduled"
  | REJECTED => "rejected"
  | OFFER_RECEIVED => "offer_received"
  | WITHDRAWN => "withdrawn"
  end.

(** [for status in ApplicationStatus] *)
Definition all : list ApplicationStatus :=
  [ IDENTIFIED; RESUME_GENERATED; COVER_LETTER_GENERATED; READY_TO_APPLY;
    APPLIED; UNDER_REVIEW; INTERVIEW_SCHEDULED; REJECTED; OFFER_RECEIVED;
    WITHDRAWN ].

Definition eqb (a b : ApplicationStatus) : bool :=
  match a, b with
  | IDENTIFIED, IDENTIFIED | RESUME_GENERATED, RESUME_GENERATED
  | COVER_LETTER_GENERATED, COVER_LETTER_GENERATED
  | READY_TO_APPLY, READY_TO_APPLY | APPLIED, APPLIED
  | UNDER_REVIEW, UNDER_REVIEW | INTERVIEW_SCHEDULED, INTERVIEW_SCHEDULED
  | REJECTED, REJECTED | OFFER_RECEIVED, OFFER_RECEIVED
  | WITHDRAWN, WITHDRAWN => true
  | _, _ => false
  end.

(** [s in l] *)
Definition among (s : ApplicationStatus) (l : list ApplicationStatus) : bool :=
  existsb (eqb s) l.

End Status.

Module Application.

Record t : Type := mk {
  id : string;
  job : Job.t;
  profile : UserProfile.t;
  match_score : MatchScore.t;
  status : ApplicationStatus;
  customized_resume_path : string;
  customized_cover_letter_path : string;
  customized_resume_content : string;
  customized_cover_letter_content : string;
  created_at : datetime;
  applied_at : option datetime;
  last_updated : datetime;
  notes : list string;
  response_received : bool;
  response_date : option datetime;
  interview_dates : list datetime
}.

(** Assignments to the attributes of an application. *)
Definition set_status (v : ApplicationStatus) (a : t) : t :=
  mk (id a) (job a) (profile a) (match_score a) v
     (customized_resume_path a) (customized_cover_letter_path a)
     (customized_resume_content a) (customized_cover_letter_content a)
     (created_at a) (applied_at a) (last_updated a) (notes a)
     (response_received a) (response_date a) (interview_dates a).
Definition set_last_updated (v : datetime) (a : t) : t :=
  mk (id a) (job a) (profile a) (match_score a) (status a)
     (customized_resume_path a) (customized_cover_letter_path a)
     (customized_resume_content a) (customized_cover_letter_content a)
     (created_at a) (applied_at a) v (notes a)
     (response_received a) (response_date a) (interview_dates a).
Definition set_applied_at (v : option datetime) (a : t) : t :=
  mk (id a) (job a) (profile a) (match_score a) (status a)
     (customized_resume_path a) (customized_cover_letter_path a)
     (customized_resume_content a) (customized_cover_letter_content a)
     (created_at a) v (last_updated a) (notes a)
     (response_received a) (response_date a) (interview_dates a).
Definition set_response_received (v : bool) (a : t) : t :=
  mk (id a) (job a) (profile a) (match_score a) (status a)
     (customized_resume_path a) (customized_cover_letter_path a)
     (customized_resume_content a) (customized_cover_letter_content a)
     (created_at a) (applied_at a) (last_updated a) (notes a)
     v (response_date a) (interview_dates a).
Definition set_response_date (v : option datetime) (a : t) : t :=
  mk (id a) (job a) (profile a) (match_score a) (status a)
     (customized_resume_path a) (customized_cover_letter_path a)
     (customized_resume_content a) (customized_cover_letter_content a)
     (created_at a) (applied_at a) (last_updated a) (notes a)
     (response_received a) v (interview_dates a).
(** [a.notes.append(v)] *)
Definition append_note (v : string) (a : t) : t :=
  mk (id a) (job a) (profile a) (match_score a) (status a)
     (customized_resume_path a) (customized_cover_letter_path a)
     (customized_resume_content a) (customized_cover_letter_content a)
     (created_at a) (applied_at a) (last_updated a) (notes a ++ [v])
     (response_received a) (response_date a) (interview_dates a).
(** [a.interview_dates.append(v)] *)
Definition append_interview_date (v : datetime) (a : t) : t :=
  mk (id a) (job a) (profile a) (match_score a) (status a)
     (customized_resume_path a) (customized_cover_letter_path a)
     (customized_resume_content a) (customized_cover_letter_content a)
     (created_at a) (applied_at a) (last_updated a) (notes a)
     (response_received a) (response_date a) (interview_dates a ++ [v]).

End Application.

Module ApplicationTracker.

(** [get_statistics()]; the dictionary of an empty tracker has no entry
    "active_applications". *)
Record statistics : Type := mkStatistics {
  total : nat;
  by_status : list (string * nat);
  average_match_score : Q;
  average_hiring_likelihood : Q;
  response_rate : Q;
  active_applications : option nat
}.

(** A non-empty string is true. *)
Definition given (o : option string) : bool :=
  match o with
  | Some s => negb (is_empty s)
  | None => false
  end.

Definition text_of (o : option string) : string :=
  match o with
  | Some s => s
  | None => EmptyString
  end.

Definition inactive_statuses : list ApplicationStatus :=
  [REJECTED; WITHDRAWN; OFFER_RECEIVED].

Definition by_hiring_likelihood (a : Application.t) : Q :=
  MatchScore.hiring_likelihood (Application.match_score a).

Definition sort_keys : list (string * (Application.t -> Q)) :=
  [ ("hiring_likelihood", by_hiring_likelihood);
    ("overall_score",
     fun a => MatchScore.overall_score (Application.match_score a));
    ("compensation",
     fun a => MatchScore.compensation_score (Application.match_score a));
    ("skill_match",
     fun a => MatchScore.skill_match_score (Application.match_score a)) ].

Section Tracker.

(** [datetime.isoformat], and [self.applications]. *)
Variable isoformat : datetime -> string.
Variable applications : Dict.t (V := Application.t).

(** [add_application]: the tracker afterwards, and the identifier. *)
Definition add_application (application : Application.t)
  : Dict.t (V := Application.t) * string :=
  (Dict.set applications (Application.id application) application,
   Application.id application).

(** [create_application]; [ident] is the generated identifier and [now]
    the time of creation. *)
Definition create_application (ident : string) (now : datetime)
  (job : Job.t) (profile : UserProfile.t) (match_score : MatchScore.t)
  : Dict.t (V := Application.t) * Application.t :=
  let application :=
    Application.mk ident job profile match_score IDENTIFIED "" "" "" ""
                   now None now [] false None [] in
  (Dict.set applications (Application.id application) application,
   application).

(** [update_status]: the tracker afterwards, and the application or
    [None]. *)
Definition update_status (now : datetime) (application_id : string)
  (status : ApplicationStatus) (note : option string)
  : Dict.t (V := Application.t) * option Application.t :=
  match Dict.get applications application_id with
  | None => (applications, None)
  | Some application =>
      let old_status := Application.status application in
      let application := Application.set_status status application in
      let application := Application.set_last_updated now application in
      let application :=
        if given note
        then Application.append_note
               ("[" ++ isoformat now ++ "] " ++ text_of note) application
        else application in
      let application :=
        if Status.eqb status APPLIED && negb (Status.eqb old_status APPLIED)
        then Application.set_applied_at (Some now) application
        else application in
      let application :=
        if Status.among status [UNDER_REVIEW; INTERVIEW_SCHEDULED]
        then Application.set_response_date (Some now)
               (Application.set_response_received true application)
        else application in
      (Dict.set applications application_id application, Some application)
  end.

(** [add_interview] *)
Definition add_interview (now : datetime) (application_id : string)
  (interview_date : datetime) (note : option string)
  : Dict.t (V := Application.t) * option Application.t :=
  match Dict.get applications application_id with
  | None => (applications, None)
  | Some application =>
      let application :=
        Application.append_interview_date interview_date application in
      let application :=
        Application.set_status INTERVIEW_SCHEDULED application in
      let application :=
        Application.set_response_received true application in
      let application :=
        if given note
        then Application.append_note
               ("[" ++ isoformat now ++ "] Interview: " ++ text_of note)
               application
        else application in
      (Dict.set applications application_id application, Some application)
  end.

(** [get_application] *)
Definition get_application (application_id : string) : option Application.t :=
  Dict.get applications application_id.

(** [get_applications_by_status] *)
Definition get_applications_by_status (status : ApplicationStatus)
  : list Application.t :=
  filter (fun app => Status.eqb (Application.status app) status)
         (Dict.values applications).

(** [get_all_applications] *)
Definition get_all_applications : list Application.t :=
  Dict.values applications.

(** [get_active_applications] *)
Definition get_active_applications : list Application.t :=
  filter (fun app =>
            negb (Status.among (Application.status app) inactive_statuses))
         (Dict.values applications).

(** [get_statistics] *)
Definition get_statistics : result statistics :=
  let total := List.length applications in
  if (total =? 0)%nat then Ok (mkStatistics 0 [] 0 0 0 None)
  else
    let by_status :=
      flat_map (fun status =>
                  let count :=
                    List.length (get_applications_by_status status) in
                  if (0 <? count)%nat then [(Status.value status, count)]
                  else [])
               Status.all in
    let match_scores :=
      map (fun app => MatchScore.overall_score (Application.match_score app))
          (Dict.values applications) in
    let hiring_likelihoods :=
      map (fun app =>
             MatchScore.hiring_likelihood (Application.match_score app))
          (Dict.values applications) in
    let responded :=
      List.length (filter Application.response_received
                          (Dict.values applications)) in
    let applied :=
      List.length
        (filter (fun app =>
                   negb (Status.eqb (Application.status app) IDENTIFIED))
                (Dict.values applications)) in
    average_match_score <-
      (if is_nil match_scores then Ok 0
       else pdiv (qsum match_scores) (of_nat total)) ;;
    average_hiring_likelihood <-
      (if is_nil hiring_likelihoods then Ok 0
       else pdiv (qsum hiring_likelihoods) (of_nat total)) ;;
    response_rate <-
      (if (0 <? applied)%nat
       then (q <- pdiv (of_nat responded) (of_nat applied) ;; Ok (q * 100))
       else Ok 0) ;;
    Ok (mkStatistics total by_status average_match_score
          average_hiring_likelihood response_rate
          (Some (List.length get_active_applications))).

(** [search_applications] *)
Definition search_applications (company title : option string)
  (min_score : option Q) (status : option ApplicationStatus)
  : list Application.t :=
  let results := Dict.values applications in
  let results :=
    if given company
    then filter (fun app =>
                   str_in (lower (text_of company))
                          (lower (Job.company (Application.job app))))
                results
    else results in
  let results :=
    if given title
    then filter (fun app =>
                   str_in (lower (text_of title))
                          (lower (Job.title (Application.job app))))
                results
    else results in
  let results :=
    match min_score with
    | Some m =>
        filter (fun app =>
                  Qleb m (MatchScore.overall_score
                            (Application.match_score app)))
               results
    | None => results
    end in
  match status with
  | Some st =>
      filter (fun app => Status.eqb (Application.status app) st) results
  | None => results
  end.

(** [get_top_opportunities] *)
Definition get_top_opportunities (limit : Z) (sort_by : string)
  : list Application.t :=
  let active := get_active_applications in
  let key_func :=
    JobMatcher.get sort_keys sort_by
      (JobMatcher.get sort_keys "hiring_likelihood" by_hiring_likelihood) in
  let sorted_apps := Seq.sorted_reverse key_func active in
  Seq.slice_to limit sorted_apps.

(** [remove_application]: the tracker afterwards, and whether the
    application was there. *)
Definition remove_application (application_id : string)
  : Dict.t (V := Application.t) * bool :=
  if negb (Dict.contains applications application_id)
  then (applications, false)
  else (Dict.del applications application_id, true).

End Tracker.

End ApplicationTracker.

(** ** Definitions used by the statements *)

(** The score that [match_job] assembles from the five fallible sub-scores:
    when the hiring likelihood is computed, the three skill lists of the
    score are still the empty lists of a fresh [MatchScore]. *)
Definition assembled (p : UserProfile.t) (j : Job.t) (sk ex ed sa co : Q)
  : MatchScore.t :=
  let lo := calculate_location_match p j in
  let ov := sk * item WEIGHTS "skill_match"
            + ex * item WEIGHTS "experience_match"
            + ed * item WEIGHTS "education_match"
            + lo * item WEIGHTS "location_match"
            + sa * item WEIGHTS "salary_match" in
  let before := MatchScore.mk ov sk ex ed lo sa 0 0 0 [] [] [] in
  MatchScore.mk ov sk ex ed lo sa 0
    (calculate_hiring_likelihood p j before) co
    (fst (fst (get_skill_details p j)))
    (snd (fst (get_skill_details p j)))
    (snd (get_skill_details p j)).

(** The specification's notion of a matched job skill: it is equivalent to some
    skill of the profile (names are compared in lower case). *)
Definition equivalent_to_some (p : UserProfile.t) (job_skill : string) : bool :=
  existsb (fun s => skills_match (lower job_skill) (lower (Skill.name s)))
          (UserProfile.skills p).

Definition matched (p : UserProfile.t) (job_skills : list string) : nat :=
  List.length (filter (equivalent_to_some p) job_skills).

(** The share [matched / total] of a list of job skills; an empty list has
    nothing to contribute. *)
Definition share (p : UserProfile.t) (job_skills : list string) : Q :=
  match job_skills with
  | [] => 0
  | _ :: _ => of_nat (matched p job_skills) / of_nat (List.length job_skills)
  end.

(** The specification's formula for the hiring likelihood of a score: the demand
    bonus counts the profile skills whose name, in lower case, is in the
    in-demand list; the penalty counts the missing skills of the score. *)
Definition in_demand_count (p : UserProfile.t) : nat :=
  List.length
    (filter (fun s => mem (lower (Skill.name s)) in_demand_skills)
            (UserProfile.skills p)).

Definition spec_hiring_likelihood (p : UserProfile.t) (ms : MatchScore.t) : Q :=
  let demand_bonus := Qmin 10 (2 * of_nat (in_demand_count p)) in
  let missing_penalty :=
    Qmin 20 (3 * of_nat (List.length (MatchScore.missing_skills ms))) in
  Qmax 5 (Qmin 95 ((6 # 10) * MatchScore.overall_score ms
                   + (25 # 100) * MatchScore.skill_match_score ms
                   + (15 # 100) * MatchScore.experience_match_score ms
                   + demand_bonus - missing_penalty)).


Definition in_range (lo hi x : Q) : Prop := lo <= x /\ x <= hi.

(** The score that a sort key selects. *)
Definition selected_score (sort_by : string) (x : scored_job) : Q :=
  if String.eqb sort_by "hiring_likelihood"
  then MatchScore.hiring_likelihood (snd x)
  else if String.eqb sort_by "compensation"
  then MatchScore.compensation_score (snd x)
  else if String.eqb sort_by "skill_match"
  then MatchScore.skill_match_score (snd x)
  else MatchScore.overall_score (snd x).

Definition recognized_keys : list string :=
  ["overall"; "hiring_likelihood"; "compensation"; "skill_match"].



(** The years of experience that [_calculate_experience_match] takes as
    required: the number found in the text of the job, or else the one of
    the first level keyword in the experience level, or else 2. *)
Definition required_years (job : Job.t) : Q :=
  match
    match extract_required_years job with
    | Some y => Some y
    | None =>
        option_map snd
          (find (fun e => str_in (fst e) (lower (Job.experience_level job)))
                level_years)
    end
  with
  | Some y => y
  | None => 2
  end.

(** No character of [s] is a decimal digit. *)
Fixpoint digit_free (s : string) : bool :=
  match s with
  | EmptyString => true
  | String c r => negb (is_digit c) && digit_free r
  end.


(** The lists of [_get_skill_details]. *)
Definition matched_of (p : UserProfile.t) (j : Job.t) : list string :=
  fst (fst (get_skill_details p j)).
Definition missing_of (p : UserProfile.t) (j : Job.t) : list string :=
  snd (fst (get_skill_details p j)).
Definition bonus_of (p : UserProfile.t) (j : Job.t) : list string :=
  snd (get_skill_details p j).

(** The score by which [get_top_opportunities] sorts. *)
Definition opportunity_score (sort_by : string) (a : Application.t) : Q :=
  if String.eqb sort_by "overall_score"
  then MatchScore.overall_score (Application.match_score a)
  else if String.eqb sort_by "compensation"
  then MatchScore.compensation_score (Application.match_score a)
  else if String.eqb sort_by "skill_match"
  then MatchScore.skill_match_score (Application.match_score a)
  else MatchScore.hiring_likelihood (Application.match_score a).

(** An application is active: its status is none of REJECTED, WITHDRAWN
    and OFFER_RECEIVED. *)
Definition active (a : Application.t) : Prop :=
  Application.status a <> REJECTED
  /\ Application.status a <> WITHDRAWN
  /\ Application.status a <> OFFER_RECEIVED.

(** Every application with a response has left the status IDENTIFIED. *)
Definition responses_follow_applications (apps : list Application.t) : Prop :=
  Forall (fun a =>
            Application.response_received a = true ->
            Application.status a <> IDENTIFIED) apps.

(** Some inputs used below. *)
Module Sample.

Definition day (n : Z) : datetime := (n * microseconds_per_day)%Z.

(** A profile with the skills Python and Kubernetes and nothing else. *)
Definition pythonist : UserProfile.t :=
  UserProfile.candidate "p-1" "" (map Skill.named ["Python"; "Kubernetes"])
    [] [] [] None "flexible".

(** A job that requires Python and AWS and prefers Docker. *)
Definition cloud_job : Job.t :=
  Job.posting "j-1" "" "" [] ["Python"; "AWS"] ["Docker"] None None false "".

(** A profile with no data at all, and a job with no data at all. *)
Definition blank : UserProfile.t :=
  UserProfile.candidate "p-0" "" [] [] [] [] None "flexible".

Definition blank_job : Job.t :=
  Job.posting "j-0" "" "" [] [] [] None None false "".

(** A job without listed skills whose description is not empty. *)
Definition described_job : Job.t :=
  Job.posting "j-2" "" "Open position" [] [] [] None None false "".

(** A job that requires Python. *)
Definition python_job : Job.t :=
  Job.posting "j-3" "" "" [] ["python"] [] None None false "".

(** A job for a senior: five years of experience are expected. *)
Definition senior_job : Job.t :=
  Job.posting "j-4" "" "" [] [] [] None None false "senior".

(** An entry-level job: no experience is expected. *)
Definition entry_job : Job.t :=
  Job.posting "j-5" "" "" [] [] [] None None false "entry".


Definition position (started : datetime) (ended : option datetime)
  : Experience.t :=
  Experience.mk "Engineer" "Acme" started ended "" [] [] "" false.

(** A profile whose only position started on day 0 and has not ended. *)
Definition trainee : UserProfile.t :=
  UserProfile.candidate "p-2" "" [] [position (day 0) None] [] [] None
    "flexible".

(** A profile whose only position lasted from day 0 to day 3653. *)
Definition veteran : UserProfile.t :=
  UserProfile.candidate "p-3" "" [] [position (day 0) (Some (day 3653))] []
    [] None "flexible".

(** A profile whose only position starts on day 30 and has no end. *)
Definition newcomer : UserProfile.t :=
  UserProfile.candidate "p-4" "" [] [position (day 30) None] [] [] None
    "flexible".


(** A job in Austin, and a candidate in Austin who wants 100000. *)
Definition austin_job : Job.t :=
  Job.posting "j-7" "Austin, TX" "Python degree" [] [] []
    (Some 120000%Z) (Some 150000%Z) false "".

Definition austinite : UserProfile.t :=
  UserProfile.candidate "p-6" "austin, tx" []
    [position (day 0) (Some (day 800))]
    [Education.mk "UT" "Bachelor of Arts" "History" None None [] []]
    [] (Some 100000%Z) "on_site".

(** The ISO format of a time, for the notes of the sample tracker. *)
Definition stamp (t : datetime) : string := "t".

Definition score_of (overall likelihood : Q) : MatchScore.t :=
  MatchScore.mk overall 0 0 0 0 0 0 likelihood 0 [] [] [].

(** A tracker with three applications: "a-1" applied for and under
    review, "a-2" identified, "a-3" rejected. *)
Definition tracker0 : Dict.t (V := Application.t) :=
  let t := fst (ApplicationTracker.create_application [] "a-1" (day 1)
                  cloud_job pythonist (score_of 60 70)) in
  let t := fst (ApplicationTracker.create_application t "a-2" (day 2)
                  python_job pythonist (score_of 80 40)) in
  let t := fst (ApplicationTracker.create_application t "a-3" (day 3)
                  senior_job pythonist (score_of 30 20)) in
  let t := fst (ApplicationTracker.update_status stamp t (day 4) "a-1"
                  APPLIED (Some "sent")) in
  let t := fst (ApplicationTracker.update_status stamp t (day 5) "a-3"
                  REJECTED None) in
  t.

Definition tracker : Dict.t (V := Application.t) :=
  fst (ApplicationTracker.update_status stamp tracker0 (day 9) "a-1"
         UNDER_REVIEW None).

End Sample.

(** * Properties *)

(** ** Numbers and results *)

Lemma Qleb_true (a b : Q) : Qleb a b = true <-> a <= b.
Proof. unfold Qleb. apply Qle_bool_iff. Qed.

Lemma Qleb_false (a b : Q) : Qleb a b = false <-> b < a.
Proof.
  unfold Qleb. split; intros H.
  - apply Qnot_le_lt. intros Hle. apply Qle_bool_iff in Hle. congruence.
  - destruct (Qle_bool a b) eqn:E; [|reflexivity].
    apply Qle_bool_iff in E. exfalso. apply (Qlt_not_le _ _ H E).
Qed.

Lemma Qltb_true (a b : Q) : Qltb a b = true <-> a < b.
Proof.
  unfold Qltb. rewrite negb_true_iff. apply (Qleb_false b a).
Qed.

Lemma Qltb_false (a b : Q) : Qltb a b = false <-> b <= a.
Proof.
  unfold Qltb. rewrite negb_false_iff. apply (Qleb_true b a).
Qed.

Lemma pmin_bounds (a b lo : Q) :
  lo <= a -> lo <= b -> lo <= pmin a b /\ pmin a b <= a /\ pmin a b <= b.
Proof.
  intros Ha Hb. unfold pmin. destruct (Qltb b a) eqn:E.
  - apply Qltb_true in E. repeat split; lra.
  - apply Qltb_false in E. repeat split; lra.
Qed.


Lemma pmin_Qmin (a b : Q) : pmin a b == Qmin a b.
Proof.
  unfold pmin. destruct (Qltb b a) eqn:E.
  - apply Qltb_true in E. symmetry. apply Q.min_r. lra.
  - apply Qltb_false in E. symmetry. apply Q.min_l. exact E.
Qed.

Lemma pmax_bounds (a b : Q) : a <= pmax a b /\ b <= pmax a b.
Proof.
  unfold pmax. destruct (Qltb a b) eqn:E.
  - apply Qltb_true in E. split; lra.
  - apply Qltb_false in E. split; lra.
Qed.

Lemma pmax_le (a b hi : Q) : a <= hi -> b <= hi -> pmax a b <= hi.
Proof.
  intros Ha Hb. unfold pmax. destruct (Qltb a b); assumption.
Qed.


Lemma pdiv_ok (a b : Q) : ~ b == 0 -> pdiv a b = Ok (a / b).
Proof.
  intros H. unfold pdiv. destruct (Qeq_bool b 0) eqn:E; [|reflexivity].
  apply Qeq_bool_iff in E. contradiction.
Qed.

Lemma pdiv_inv (a b q : Q) : pdiv a b = Ok q -> ~ b == 0 /\ q = a / b.
Proof.
  unfold pdiv. destruct (Qeq_bool b 0) eqn:E; [discriminate|].
  intros H. injection H as <-. split; [|reflexivity].
  intros Hb. apply Qeq_bool_iff in Hb. congruence.
Qed.

Lemma of_nat_nonneg (n : nat) : 0 <= of_nat n.
Proof.
  unfold of_nat. change 0 with (inject_Z 0). rewrite <- Zle_Qle. lia.
Qed.

Lemma of_nat_pos (n : nat) : (0 < n)%nat -> 0 < of_nat n.
Proof.
  intros H. unfold of_nat. change 0 with (inject_Z 0). rewrite <- Zlt_Qlt. lia.
Qed.

Lemma of_nat_le (n k : nat) : (n <= k)%nat -> of_nat n <= of_nat k.
Proof.
  intros H. unfold of_nat. rewrite <- Zle_Qle. lia.
Qed.

Lemma len_or_1_pos {A : Type} (l : list A) : (0 < len_or_1 l)%nat.
Proof. unfold len_or_1. destruct (List.length l); lia. Qed.

Lemma len_or_1_ge {A : Type} (l : list A) : (List.length l <= len_or_1 l)%nat.
Proof. unfold len_or_1. destruct (List.length l); lia. Qed.

Lemma len_or_1_cons {A : Type} (x : A) (l : list A) :
  len_or_1 (x :: l) = List.length (x :: l).
Proof. reflexivity. Qed.

Lemma Qdiv_bounds (a b : Q) : 0 <= a -> a <= b -> 0 < b -> 0 <= a / b <= 1.
Proof.
  intros Ha Hab Hb. split.
  - apply Qle_shift_div_l; [exact Hb | lra].
  - apply Qle_shift_div_r; [exact Hb | lra].
Qed.

(** ** Skill equivalence *)

Lemma variant_hit_sym (a b : string) (e : string * list string) :
  variant_hit a b e = variant_hit b a e.
Proof.
  unfold variant_hit.
  destruct (String.eqb a (fst e)), (String.eqb b (fst e)),
           (mem a (snd e)), (mem b (snd e)); reflexivity.
Qed.

Lemma existsb_ext {A : Type} (f g : A -> bool) (l : list A) :
  (forall x, f x = g x) -> existsb f l = existsb g l.
Proof.
  intros H. induction l as [|x l IH]; simpl; [reflexivity|].
  now rewrite H, IH.
Qed.

(** C7.  The skill equivalence [_skills_match] is symmetric on all pairs of
    skill names: [equivalent(a, b) = equivalent(b, a)]. *)
Theorem skills_match_sym (a b : string) : skills_match a b = skills_match b a.
Proof.
  unfold skills_match.
  rewrite (String.eqb_sym a b).
  rewrite (existsb_ext _ _ variations (variant_hit_sym a b)).
  rewrite (andb_comm (3 <? String.length a)%nat).
  rewrite (orb_comm (str_in a b)).
  reflexivity.
Qed.

(** Every entry of the table relates its base name and each of its
    variants, in both directions. *)
Lemma variations_match :
  forallb (fun e =>
             forallb (fun v => skills_match (fst e) v && skills_match v (fst e))
                     (snd e))
          variations = true.
Proof. vm_compute. reflexivity. Qed.

(** ** The shape of a score *)


Lemma match_job_inv (now : datetime) (p : UserProfile.t) (j : Job.t)
  (ms : MatchScore.t) :
  match_job now p j = Ok ms ->
  exists sk ex ed sa co,
    calculate_skill_match p j = Ok sk
    /\ calculate_experience_match now p j = Ok ex
    /\ calculate_education_match p j = Ok ed
    /\ calculate_salary_match p j = Ok sa
    /\ calculate_compensation_score p j = Ok co
    /\ ms = assembled p j sk ex ed sa co.
Proof.
  unfold match_job.
  destruct (calculate_skill_match p j) as [sk|] eqn:Esk; [|discriminate].
  destruct (calculate_experience_match now p j) as [ex|] eqn:Eex;
    [|discriminate].
  destruct (calculate_education_match p j) as [ed|] eqn:Eed; [|discriminate].
  destruct (calculate_salary_match p j) as [sa|] eqn:Esa; [|discriminate].
  destruct (calculate_compensation_score p j) as [co|] eqn:Eco;
    [|discriminate].
  cbn [bind]. unfold assembled.
  destruct (get_skill_details p j) as [[matched missing] bonus].
  intros H. injection H as <-.
  exists sk, ex, ed, sa, co. repeat split; reflexivity.
Qed.


(** The weights are those of the table, and they add up to one. *)
Lemma WEIGHTS_values :
  item WEIGHTS "skill_match" = 35 # 100
  /\ item WEIGHTS "experience_match" = 20 # 100
  /\ item WEIGHTS "education_match" = 10 # 100
  /\ item WEIGHTS "location_match" = 15 # 100
  /\ item WEIGHTS "salary_match" = 20 # 100.
Proof. repeat split; reflexivity. Qed.

Lemma WEIGHTS_total : qsum (map snd WEIGHTS) == 1.
Proof. vm_compute. reflexivity. Qed.


(** C1.  The overall score of the score that [match_job] returns is the
    weighted sum of its five primary sub-scores, with the weights 0.35
    (skill), 0.20 (experience), 0.10 (education), 0.15 (location) and 0.20
    (salary). *)
Theorem overall_score_weighted_sum (now : datetime) (p : UserProfile.t)
  (j : Job.t) (ms : MatchScore.t) :
  match_job now p j = Ok ms ->
  MatchScore.overall_score ms ==
    MatchScore.skill_match_score ms * (35 # 100)
    + MatchScore.experience_match_score ms * (20 # 100)
    + MatchScore.education_match_score ms * (10 # 100)
    + MatchScore.location_match_score ms * (15 # 100)
    + MatchScore.salary_match_score ms * (20 # 100).
Proof.
  intros H.
  destruct (match_job_inv now p j ms H)
    as (sk & ex & ed & sa & co & _ & _ & _ & _ & _ & ->).
  unfold assembled. cbn [MatchScore.overall_score MatchScore.skill_match_score
    MatchScore.experience_match_score MatchScore.education_match_score
    MatchScore.location_match_score MatchScore.salary_match_score].
  destruct WEIGHTS_values as (-> & -> & -> & -> & ->).
  reflexivity.
Qed.

Lemma overall_score_weighted_sum_witness :
  exists ms,
    match_job 0%Z Sample.pythonist Sample.cloud_job = Ok ms
    /\ MatchScore.overall_score ms ==
         MatchScore.skill_match_score ms * (35 # 100)
         + MatchScore.experience_match_score ms * (20 # 100)
         + MatchScore.education_match_score ms * (10 # 100)
         + MatchScore.location_match_score ms * (15 # 100)
         + MatchScore.salary_match_score ms * (20 # 100).
Proof.
  eexists. split.
  - vm_compute. reflexivity.
  - apply (overall_score_weighted_sum 0%Z Sample.pythonist Sample.cloud_job).
    vm_compute. reflexivity.
Defined.

(** ** Sets *)

Lemma set_add_In (x y : string) (s : list string) :
  In x (set_add y s) <-> x = y \/ In x s.
Proof.
  induction s as [|z s IH]; simpl.
  - intuition.
  - destruct (String.eqb y z) eqn:E.
    + apply String.eqb_eq in E. subst z. simpl. intuition.
    + simpl. rewrite IH. intuition.
Qed.

Lemma fold_set_add_In (x : string) (l acc : list string) :
  In x (fold_left (fun s y => set_add y s) l acc) <-> In x l \/ In x acc.
Proof.
  revert acc. induction l as [|y l IH]; intros acc; simpl.
  - intuition.
  - rewrite IH, set_add_In. intuition.
Qed.

Lemma set_of_In (x : string) (l : list string) : In x (set_of l) <-> In x l.
Proof.
  unfold set_of. rewrite fold_set_add_In. simpl. intuition.
Qed.

Lemma existsb_same_elements {A : Type} (f : A -> bool) (l1 l2 : list A) :
  (forall x, In x l1 <-> In x l2) -> existsb f l1 = existsb f l2.
Proof.
  intros H. apply eq_true_iff_eq. rewrite !existsb_exists.
  split; intros (x & Hx & Hf); exists x; split; auto; apply H; exact Hx.
Qed.

Lemma existsb_set_of (f : string -> bool) (l : list string) :
  existsb f (set_of l) = existsb f l.
Proof. apply existsb_same_elements. intros x. apply set_of_In. Qed.

Lemma existsb_map {A B : Type} (f : B -> bool) (g : A -> B) (l : list A) :
  existsb f (map g l) = existsb (fun x => f (g x)) l.
Proof.
  induction l as [|x l IH]; simpl; [reflexivity|]. now rewrite IH.
Qed.

Lemma skills_match_refl (a : string) : skills_match a a = true.
Proof. unfold skills_match. now rewrite String.eqb_refl. Qed.

Lemma mem_skills_match (x : string) (l : list string) :
  mem x l = true -> existsb (skills_match x) l = true.
Proof.
  unfold mem. rewrite !existsb_exists. intros (y & Hy & E).
  apply String.eqb_eq in E. subst y. exists x. split; [exact Hy|].
  apply skills_match_refl.
Qed.

(** ** The skill score *)


Lemma has_skill_equivalent (p : UserProfile.t) (s : string) :
  has_skill p s = equivalent_to_some p s.
Proof.
  unfold has_skill, equivalent_to_some, user_skills_lower.
  rewrite existsb_set_of, existsb_map.
  destruct (mem (lower s) _) eqn:E; [|reflexivity].
  apply mem_skills_match in E.
  rewrite existsb_set_of, existsb_map in E. now rewrite E.
Qed.

Lemma matches_of_matched (p : UserProfile.t) (l : list string) :
  matches_of p l = matched p l.
Proof.
  unfold matches_of, matched. f_equal.
  apply filter_ext. intros s. apply has_skill_equivalent.
Qed.

Lemma matched_le (p : UserProfile.t) (l : list string) :
  (matched p l <= List.length l)%nat.
Proof. unfold matched. apply filter_length_le. Qed.

Lemma share_eq (p : UserProfile.t) (l : list string) :
  of_nat (matched p l) / of_nat (len_or_1 l) == share p l.
Proof.
  destruct l as [|x l].
  - vm_compute. reflexivity.
  - unfold share. rewrite len_or_1_cons. reflexivity.
Qed.

Lemma share_bounds (p : UserProfile.t) (l : list string) : 0 <= share p l <= 1.
Proof.
  destruct l as [|x l]; unfold share.
  - split; lra.
  - apply Qdiv_bounds.
    + apply of_nat_nonneg.
    + apply of_nat_le, matched_le.
    + apply of_nat_pos. simpl. lia.
Qed.

Lemma of_nat_len_or_1_nonzero {A : Type} (l : list A) :
  ~ of_nat (len_or_1 l) == 0.
Proof.
  pose proof (of_nat_pos (len_or_1 l) (len_or_1_pos l)). lra.
Qed.

Lemma calculate_skill_match_listed (p : UserProfile.t) (j : Job.t) :
  Job.required_skills j <> [] \/ Job.preferred_skills j <> [] ->
  calculate_skill_match p j =
    Ok (pmin 100
          (of_nat (matched p (Job.required_skills j))
             / of_nat (len_or_1 (Job.required_skills j)) * 70
           + of_nat (matched p (Job.preferred_skills j))
               / of_nat (len_or_1 (Job.preferred_skills j)) * 30)).
Proof.
  intros H. unfold calculate_skill_match.
  assert (E : is_nil (Job.required_skills j)
              && is_nil (Job.preferred_skills j) = false).
  { destruct (Job.required_skills j), (Job.preferred_skills j);
      simpl; try reflexivity. destruct H; congruence. }
  rewrite E, !matches_of_matched.
  rewrite !pdiv_ok by apply of_nat_len_or_1_nonzero.
  reflexivity.
Qed.

(** C5.  For a job that lists a required or a preferred skill, the skill
    score is [min(100, 70 * (matched required / total required)
    + 30 * (matched preferred / total preferred))], where a job skill is
    matched when it is equivalent to some skill of the profile; it is the
    skill score of the [MatchScore] that [match_job] returns. *)
Theorem skill_match_score_formula (p : UserProfile.t) (j : Job.t) :
  Job.required_skills j <> [] \/ Job.preferred_skills j <> [] ->
  exists v,
    calculate_skill_match p j = Ok v
    /\ v == Qmin 100 (70 * share p (Job.required_skills j)
                      + 30 * share p (Job.preferred_skills j))
    /\ forall now ms,
         match_job now p j = Ok ms -> MatchScore.skill_match_score ms = v.
Proof.
  intros H. eexists. split; [apply (calculate_skill_match_listed p j H)|].
  split.
  - rewrite pmin_Qmin, !share_eq.
    apply Q.min_compat; [reflexivity | ring].
  - intros now ms Hms.
    destruct (match_job_inv now p j ms Hms)
      as (sk & ex & ed & sa & co & Esk & _ & _ & _ & _ & ->).
    rewrite (calculate_skill_match_listed p j H) in Esk.
    injection Esk as <-. reflexivity.
Qed.

(** With the required skills Python and AWS, the preferred skill Docker and
    the profile skills Python and Kubernetes, the skill score is 35. *)
Lemma skill_match_score_formula_witness :
  (Job.required_skills Sample.cloud_job <> []
   \/ Job.preferred_skills Sample.cloud_job <> [])
  /\ exists v,
       calculate_skill_match Sample.pythonist Sample.cloud_job = Ok v
       /\ v == 35.
Proof.
  assert (H : Job.required_skills Sample.cloud_job <> []
              \/ Job.preferred_skills Sample.cloud_job <> []).
  { left. discriminate. }
  split; [exact H|].
  destruct (skill_match_score_formula Sample.pythonist Sample.cloud_job H)
    as (v & Hv & Heq & _).
  exists v. split; [exact Hv|].
  rewrite Heq. vm_compute. reflexivity.
Defined.

(** ** The fuzzy path of the skill score *)

(** C9 as the specification states it fails: with no skills on either side
    and a description that is not empty, the score is 0, not 50. *)
Lemma zero_skills_not_always_50 :
  ~ (forall (p : UserProfile.t) (j : Job.t),
       UserProfile.skills p = [] ->
       Job.required_skills j = [] ->
       Job.preferred_skills j = [] ->
       exists v, calculate_skill_match p j = Ok v /\ v == 50).
Proof.
  intros H.
  destruct (H Sample.blank Sample.described_job eq_refl eq_refl eq_refl)
    as (v & Hv & Heq).
  vm_compute in Hv. injection Hv as <-.
  vm_compute in Heq. discriminate.
Qed.

(** C9 (amended).  For a profile with no skills and a job with no required
    and no preferred skills, the skill score is the one of the fuzzy
    description path, whose divisor [len(skills) or 1] is 1: the score is 50
    when the description of the job is empty and 0 otherwise. *)
Theorem zero_skills_skill_match (p : UserProfile.t) (j : Job.t) :
  UserProfile.skills p = [] ->
  Job.required_skills j = [] ->
  Job.preferred_skills j = [] ->
  calculate_skill_match p j = fuzzy_skill_match p (Job.description j)
  /\ len_or_1 (UserProfile.skills p) = 1%nat
  /\ exists v,
       calculate_skill_match p j = Ok v
       /\ v == (if is_empty (Job.description j) then 50 else 0).
Proof.
  intros Hs Hr Hp.
  assert (E : calculate_skill_match p j
              = fuzzy_skill_match p (Job.description j)).
  { unfold calculate_skill_match. rewrite Hr, Hp. reflexivity. }
  split; [exact E|]. split; [rewrite Hs; reflexivity|].
  rewrite E. unfold fuzzy_skill_match. rewrite Hs.
  destruct (is_empty (Job.description j)).
  - exists 50. split; reflexivity.
  - eexists. split; [vm_compute; reflexivity|]. vm_compute. reflexivity.
Qed.

Lemma zero_skills_skill_match_witness :
  exists v,
    calculate_skill_match Sample.blank Sample.blank_job = Ok v /\ v == 50.
Proof.
  destruct (zero_skills_skill_match Sample.blank Sample.blank_job
              eq_refl eq_refl eq_refl) as (_ & _ & v & Hv & Heq).
  exists v. split; [exact Hv | exact Heq].
Defined.

(** ** The hiring likelihood *)

Lemma pmax_Qmax (a b : Q) : pmax a b == Qmax a b.
Proof.
  unfold pmax. destruct (Qltb a b) eqn:E.
  - apply Qltb_true in E. symmetry. apply Q.max_r. lra.
  - apply Qltb_false in E. symmetry. apply Q.max_l. exact E.
Qed.

Lemma of_nat_S (n : nat) : of_nat (S n) == of_nat n + 1.
Proof.
  unfold of_nat. rewrite Nat2Z.inj_succ. unfold Z.succ.
  rewrite inject_Z_plus. reflexivity.
Qed.

Lemma demand_bonus_fold (f : Skill.t -> bool) (l : list Skill.t) (a : Q) :
  fold_left (fun bonus skill => if f skill then bonus + 2 else bonus) l a
  == a + 2 * of_nat (List.length (filter f l)).
Proof.
  revert a. induction l as [|x l IH]; intros a; simpl.
  - change (of_nat 0) with 0. ring.
  - destruct (f x); rewrite IH.
    + simpl List.length. rewrite of_nat_S. ring.
    + reflexivity.
Qed.

(** X8.  What the code computes: when [match_job] calls
    [_calculate_hiring_likelihood], the missing skills of the score have not
    been assigned yet, so no penalty is ever subtracted. *)
Lemma hiring_likelihood_no_penalty (now : datetime) (p : UserProfile.t)
  (j : Job.t) (ms : MatchScore.t) :
  match_job now p j = Ok ms ->
  MatchScore.hiring_likelihood ms ==
    Qmax 5 (Qmin 95 ((6 # 10) * MatchScore.overall_score ms
                     + (25 # 100) * MatchScore.skill_match_score ms
                     + (15 # 100) * MatchScore.experience_match_score ms
                     + Qmin 10 (2 * of_nat (in_demand_count p)))).
Proof.
  intros H.
  destruct (match_job_inv now p j ms H)
    as (sk & ex & ed & sa & co & _ & _ & _ & _ & _ & ->).
  unfold assembled, calculate_hiring_likelihood, in_demand_count.
  cbn [MatchScore.overall_score MatchScore.skill_match_score
       MatchScore.experience_match_score MatchScore.hiring_likelihood
       MatchScore.missing_skills List.length].
  rewrite pmax_Qmax, pmin_Qmin.
  apply Q.max_compat; [reflexivity|].
  apply Q.min_compat; [reflexivity|].
  rewrite !pmin_Qmin.
  rewrite (Q.min_compat 10 10 (Qeq_refl 10) _ _
             (demand_bonus_fold _ (UserProfile.skills p) 0)).
  assert (E0 : Qmin 20 (of_nat 0 * 3) == 0) by (vm_compute; reflexivity).
  rewrite E0.
  assert (E1 : forall c, Qmin 10 (0 + 2 * c) == Qmin 10 (2 * c)).
  { intros c. apply Q.min_compat; [reflexivity | ring]. }
  rewrite E1. ring.
Qed.

(** C3 (the code departs from the specification).  For the profile without
    skills and the job that requires Python, the score lists one missing
    skill; the specified formula gives the hiring likelihood 14.7, and the code
    returns 17.7: the penalty for the missing skill is not subtracted. *)
Theorem hiring_likelihood_misses_penalty :
  exists ms,
    match_job 0%Z Sample.blank Sample.python_job = Ok ms
    /\ MatchScore.missing_skills ms = ["Python"]
    /\ MatchScore.hiring_likelihood ms == 177 # 10
    /\ spec_hiring_likelihood Sample.blank ms == 147 # 10.
Proof.
  eexists. split; [vm_compute; reflexivity|].
  split; [reflexivity|]. split; vm_compute; reflexivity.
Qed.

(** ** The clock *)

(** C6 as the specification states it fails: a position without an end date
    lasts until [datetime.now()], so the same profile and job score
    differently on day 365 and on day 2200. *)
Lemma scoring_reads_the_clock :
  ~ (forall (now1 now2 : datetime) (p : UserProfile.t) (j : Job.t),
       match_job now1 p j = match_job now2 p j).
Proof.
  intros H.
  specialize (H (Sample.day 365) (Sample.day 2200)
                Sample.trainee Sample.senior_job).
  vm_compute in H. discriminate.
Qed.

Lemma duration_years_ended (now1 now2 : datetime) (e : Experience.t) :
  Experience.end_date e <> None ->
  Experience.duration_years now1 e = Experience.duration_years now2 e.
Proof.
  unfold Experience.duration_years.
  destruct (Experience.end_date e); [reflexivity | congruence].
Qed.

Lemma total_experience_years_ended (now1 now2 : datetime)
  (p : UserProfile.t) :
  Forall (fun e => Experience.end_date e <> None)
         (UserProfile.experiences p) ->
  UserProfile.total_experience_years now1 p
  = UserProfile.total_experience_years now2 p.
Proof.
  unfold UserProfile.total_experience_years.
  induction 1 as [|e l He _ IH]; simpl; [reflexivity|].
  now rewrite IH, (duration_years_ended now1 now2 e He).
Qed.

(** C6 (amended).  For a profile all of whose positions have an end date,
    scoring the same profile and job twice gives identical results (the
    sub-scores, the overall score, the hiring likelihood and the three skill
    lists), whenever the two calls are made. *)
Theorem scoring_deterministic_when_ended (now1 now2 : datetime)
  (p : UserProfile.t) (j : Job.t) :
  Forall (fun e => Experience.end_date e <> None)
         (UserProfile.experiences p) ->
  match_job now1 p j = match_job now2 p j.
Proof.
  intros H. unfold match_job, calculate_experience_match.
  rewrite (total_experience_years_ended now1 now2 p H). reflexivity.
Qed.

Lemma scoring_deterministic_when_ended_witness :
  match_job (Sample.day 365) Sample.veteran Sample.senior_job
  = match_job (Sample.day 2200) Sample.veteran Sample.senior_job.
Proof.
  apply (scoring_deterministic_when_ended (Sample.day 365) (Sample.day 2200)
           Sample.veteran Sample.senior_job).
  constructor; [discriminate | constructor].
Defined.

(** ** The sub-scores: results and ranges *)
















(** ** The ranges of a score *)




(** ** Missing data *)


(** A position that has not started yet makes the total experience
    negative; for an entry-level job [user_years / required_years] then
    divides by zero. *)
Lemma entry_job_before_first_day :
  match_job (Sample.day 0) Sample.newcomer Sample.entry_job
  = Raise ZeroDivisionError.
Proof. vm_compute. reflexivity. Qed.




(** ** Ranking *)

Section Sorting.

Context {A : Type}.
Variable key : A -> Q.

Lemma insert_desc_perm (x : A) (l : list A) :
  Permutation (x :: l) (insert_desc key x l).
Proof.
  induction l as [|y l IH]; simpl; [reflexivity|].
  destruct (Qltb (key x) (key y)); [|reflexivity].
  rewrite perm_swap. now constructor.
Qed.

Lemma sort_reverse_perm (l : list A) : Permutation l (sort_reverse key l).
Proof.
  induction l as [|x l IH]; simpl; [constructor|].
  rewrite <- insert_desc_perm. now constructor.
Qed.

Lemma insert_desc_sorted (x : A) (l : list A) :
  StronglySorted (fun a b => key b <= key a) l ->
  StronglySorted (fun a b => key b <= key a) (insert_desc key x l).
Proof.
  induction 1 as [|y l Hs IH Hy]; simpl.
  - constructor; constructor.
  - destruct (Qltb (key x) (key y)) eqn:E.
    + apply Qltb_true in E. constructor; [exact IH|].
      apply (Permutation_Forall (insert_desc_perm x l)).
      constructor; [lra | exact Hy].
    + apply Qltb_false in E. constructor.
      * constructor; assumption.
      * constructor; [exact E|].
        apply (Forall_impl _ (P := fun b => key b <= key y)); [|exact Hy].
        intros b Hb. lra.
Qed.

Lemma sort_reverse_sorted (l : list A) :
  StronglySorted (fun a b => key b <= key a) (sort_reverse key l).
Proof.
  induction l as [|x l IH]; simpl; [constructor|].
  now apply insert_desc_sorted.
Qed.



End Sorting.

Lemma mapM_scored (now : datetime) (p : UserProfile.t) (jobs : list Job.t)
  (scored : list scored_job) :
  mapM (fun job => s <- match_job now p job ;; Ok (job, s)) jobs = Ok scored ->
  map fst scored = jobs
  /\ Forall (fun x => match_job now p (fst x) = Ok (snd x)) scored.
Proof.
  revert scored. induction jobs as [|job jobs IH]; intros scored; simpl.
  - intros H. injection H as <-. split; constructor.
  - destruct (match_job now p job) as [s|] eqn:Es; [|discriminate].
    cbn [bind].
    destruct (mapM _ jobs) as [rest|]; [|discriminate].
    cbn [bind]. intros H. injection H as <-.
    destruct (IH rest eq_refl) as [Hm Hf]. split.
    + simpl. now rewrite Hm.
    + constructor; [exact Es | exact Hf].
Qed.


Lemma key_of_recognized (sort_by : string) :
  In sort_by recognized_keys ->
  get sort_keys sort_by (get sort_keys "overall" by_overall)
  = selected_score sort_by.
Proof.
  unfold recognized_keys. cbn [In].
  intros [<- | [<- | [<- | [<- | []]]]]; reflexivity.
Qed.






(** ** Worked examples *)

(** A minimum salary of 150000 against a job that pays 160000 to 190000:
    both bounds meet the expectation. *)
Example salary_both_bounds_meet :
  calculate_salary_match
    (UserProfile.candidate "p" "" [] [] [] [] (Some 150000%Z) "flexible")
    (Job.posting "j" "" "" [] [] [] (Some 160000%Z) (Some 190000%Z) false "")
  = Ok 100.
Proof. reflexivity. Qed.

(** No minimum salary against a job that pays up to 220000: the
    compensation is in the top band and the salary score is neutral. *)
Example compensation_top_band :
  calculate_compensation_score
    (UserProfile.candidate "p" "" [] [] [] [] None "flexible")
    (Job.posting "j" "" "" [] [] [] None (Some 220000%Z) false "")
  = Ok 95
  /\ calculate_salary_match
       (UserProfile.candidate "p" "" [] [] [] [] None "flexible")
       (Job.posting "j" "" "" [] [] [] None (Some 220000%Z) false "")
     = Ok 70.
Proof. split; reflexivity. Qed.

(** The first pattern that matches decides the required years. *)
Example required_years_first_pattern :
  extract_required_years
    (Job.posting "j" "" "We need 5+ years of experience" ["at least 3 years"]
                 [] [] None None false "")
  = Some 5
  /\ extract_required_years
       (Job.posting "j" "" "Backend role" ["At  least 12 Years"]
                    [] [] None None false "")
     = Some 12
  /\ extract_required_years
       (Job.posting "j" "" "Backend role" [] [] [] None None false "")
     = None.
Proof. repeat split; vm_compute; reflexivity. Qed.

(** A shared word of the two locations scores 80. *)
Example location_shared_word :
  calculate_location_match
    (UserProfile.candidate "p" "Austin, TX" [] [] [] ["Denver"] None "hybrid")
    (Job.posting "j" "Dallas, TX" "" [] [] [] None None false "")
  = 80.
Proof. vm_compute. reflexivity. Qed.

(** A bachelor against a required master: 60 / 80 of 80 points. *)
Example education_below_requirement :
  exists v,
    calculate_education_match
      (UserProfile.candidate "p" ""  [] []
         [Education.mk "MIT" "Bachelor of Science" "CS" None None [] []]
         [] None "flexible")
      (Job.posting "j" "" "Master degree required" [] [] [] None None false "")
    = Ok v
    /\ v == 60.
Proof. eexists. split; vm_compute; reflexivity. Qed.

(** Five jobs ranked by hiring likelihood: the two jobs of likelihood 44.7
    keep the order of the input. *)
Example rank_five_jobs :
  exists out,
    rank_jobs 0%Z Sample.pythonist
      [Sample.blank_job; Sample.cloud_job; Sample.python_job;
       Sample.described_job; Sample.senior_job] "hiring_likelihood" = Ok out
    /\ map (fun x => Job.id (fst x)) out = ["j-3"; "j-0"; "j-4"; "j-1"; "j-2"]
    /\ map (fun x => Qred (MatchScore.hiring_likelihood (snd x))) out
       = [539 # 10; 447 # 10; 447 # 10; 189 # 5; 217 # 10].
Proof. eexists. repeat split; vm_compute; reflexivity. Qed.

(** The title case of the skill lists. *)
Example title_of_skill_names :
  map title ["aws"; "node.js"; "k8s"; "machine learning"]
  = ["Aws"; "Node.Js"; "K8S"; "Machine Learning"].
Proof. reflexivity. Qed.

(** * Further properties of the scoring engine *)

(** ** Skill equivalence is not transitive *)

(** X1.  [_skills_match] relates every name to itself, but it is not
    transitive: "java" matches "javascript" (a substring), "javascript"
    matches "js" (a variant), and "java" does not match "js". *)
Theorem skills_match_refl_not_trans :
  (forall a, skills_match a a = true)
  /\ ~ (forall a b c,
          skills_match a b = true -> skills_match b c = true ->
          skills_match a c = true).
Proof.
  split; [apply skills_match_refl|].
  intros H. specialize (H "java" "javascript" "js" eq_refl eq_refl).
  vm_compute in H. discriminate.
Qed.

(** ** Required years come from digits only *)

Section NoDigits.

Context {A : Type}.

Lemma lit_digit_free (l s : string) (k : string -> option A) :
  digit_free s = true ->
  (forall s', digit_free s' = true -> k s' = None) ->
  Re.lit l s k = None.
Proof.
  revert s. induction l as [|a l IH]; intros s Hs Hk.
  - destruct s; apply Hk; exact Hs.
  - destruct s as [|c s]; [reflexivity|]. cbn [Re.lit].
    destruct (Ascii.eqb _ _); [|reflexivity].
    apply IH; [|exact Hk].
    cbn [digit_free] in Hs. now apply andb_true_iff in Hs.
Qed.

Lemma class_digit_free (f : ascii -> bool) (s : string)
  (k : string -> option A) :
  digit_free s = true ->
  (forall s', digit_free s' = true -> k s' = None) ->
  Re.class f s k = None.
Proof.
  intros Hs Hk. destruct s as [|c s]; [reflexivity|]. cbn [Re.class].
  destruct (f c); [|reflexivity].
  apply Hk. cbn [digit_free] in Hs. now apply andb_true_iff in Hs.
Qed.

Lemma star_digit_free (n : nat)
  (step : string -> (string -> option A) -> option A) (s : string)
  (k : string -> option A) :
  (forall s0 k0,
     digit_free s0 = true ->
     (forall s', digit_free s' = true -> k0 s' = None) ->
     step s0 k0 = None) ->
  digit_free s = true ->
  (forall s', digit_free s' = true -> k s' = None) ->
  Re.star n step s k = None.
Proof.
  intros Hstep. revert s. induction n as [|n IH]; intros s Hs Hk.
  - now apply Hk.
  - cbn [Re.star]. rewrite Hstep; [now apply Hk | exact Hs |].
    intros s' Hs'. destruct (_ <? _)%nat; [|reflexivity].
    now apply IH.
Qed.

(** A match on a text without digits can only hand texts without digits
    to its continuation. *)
Lemma m_digit_free (r : Re.regex) (s : string) (k : string -> option A) :
  digit_free s = true ->
  (forall s', digit_free s' = true -> k s' = None) ->
  Re.m r s k = None.
Proof.
  revert s k.
  induction r as [l| | |r1 IH1 r2 IH2|r1 IH1 r2 IH2|r1 IH1|r1 IH1|r1 IH1];
    intros s k Hs Hk; cbn [Re.m].
  - now apply lit_digit_free.
  - now apply class_digit_free.
  - now apply class_digit_free.
  - apply IH1; [exact Hs|]. intros s1 Hs1. now apply IH2.
  - rewrite IH1 by assumption. now apply IH2.
  - rewrite IH1 by assumption. now apply Hk.
  - apply star_digit_free; assumption.
  - apply IH1; [exact Hs|]. intros s1 Hs1.
    apply star_digit_free; assumption.
Qed.

End NoDigits.

Lemma digit_needed (s : string) (k : string -> option string) :
  digit_free s = true -> Re.m (Re.Plus Re.Digit) s k = None.
Proof.
  intros Hs. cbn [Re.m]. destruct s as [|c s]; [reflexivity|].
  cbn [Re.class]. cbn [digit_free] in Hs. apply andb_true_iff in Hs.
  destruct Hs as [Hc _]. apply negb_true_iff in Hc. now rewrite Hc.
Qed.

Lemma search_digit_free (p : Re.pattern) (s : string) :
  Re.grp p = Re.Plus Re.Digit ->
  digit_free s = true -> Re.search p s = None.
Proof.
  intros Hp. induction s as [|c s IH]; intros Hs.
  - cbn [Re.search]. unfold Re.match_here. rewrite Hp.
    rewrite m_digit_free; [reflexivity | exact Hs |].
    intros s' Hs'. now apply digit_needed.
  - cbn [Re.search]. unfold Re.match_here. rewrite Hp.
    rewrite m_digit_free; [| exact Hs |].
    + apply IH. cbn [digit_free] in Hs. now apply andb_true_iff in Hs.
    + intros s' Hs'. now apply digit_needed.
Qed.

Lemma first_match_digit_free (ps : list Re.pattern) (text : string) :
  Forall (fun p => Re.grp p = Re.Plus Re.Digit) ps ->
  digit_free text = true -> first_match ps text = None.
Proof.
  induction 1 as [|p ps Hp _ IH]; intros Ht; [reflexivity|].
  cbn [first_match]. rewrite (search_digit_free p text Hp Ht). now apply IH.
Qed.

(** X2.  When the description and the requirements of a job hold no decimal
    digit, [_extract_required_years] finds nothing, and the required years
    are those of the experience level, or else 2. *)
Theorem no_digits_no_required_years (j : Job.t) :
  digit_free (job_text j) = true ->
  extract_required_years j = None
  /\ required_years j
     = match find (fun e => str_in (fst e) (lower (Job.experience_level j)))
                  level_years with
       | Some e => snd e
       | None => 2
       end.
Proof.
  intros H.
  assert (E : extract_required_years j = None).
  { unfold extract_required_years. apply first_match_digit_free; [|exact H].
    repeat constructor. }
  split; [exact E|].
  unfold required_years. rewrite E.
  destruct (find _ level_years); reflexivity.
Qed.

Lemma no_digits_no_required_years_witness :
  extract_required_years Sample.senior_job = None
  /\ required_years Sample.senior_job = 5.
Proof.
  destruct (no_digits_no_required_years Sample.senior_job eq_refl)
    as [H1 H2].
  split; [exact H1|]. rewrite H2. reflexivity.
Defined.

(** ** The experience score *)

Lemma float_of_digits_nonneg (s : string) : 0 <= float_of_digits s.
Proof.
  unfold float_of_digits. change 0 with (inject_Z 0).
  rewrite <- Zle_Qle. apply N2Z.is_nonneg.
Qed.

Lemma first_match_nonneg (ps : list Re.pattern) (text : string) (y : Q) :
  first_match ps text = Some y -> 0 <= y.
Proof.
  induction ps as [|p ps IH]; cbn [first_match]; [discriminate|].
  destruct (Re.search p text) as [g|]; [|exact IH].
  intros H. injection H as <-. apply float_of_digits_nonneg.
Qed.

Lemma level_years_nonneg (f : string * Q -> bool) (e : string * Q) :
  find f level_years = Some e -> 0 <= snd e.
Proof.
  intros H. apply find_some in H. destruct H as [Hin _].
  unfold level_years in Hin. cbn [In] in Hin.
  repeat (destruct Hin as [<- | Hin]; [cbn [snd]; lra|]).
  destruct Hin.
Qed.

Lemma required_years_nonneg (j : Job.t) : 0 <= required_years j.
Proof.
  unfold required_years.
  destruct (extract_required_years j) as [y|] eqn:E.
  - apply (first_match_nonneg _ _ _ E).
  - destruct (find _ level_years) as [e|] eqn:F; cbn [option_map]; [|lra].
    apply (level_years_nonneg _ _ F).
Qed.

Lemma calculate_experience_match_eq (now : datetime) (p : UserProfile.t)
  (j : Job.t) :
  calculate_experience_match now p j
  = (score <-
       (if Qleb (required_years j) (UserProfile.total_experience_years now p)
        then Ok (if Qltb (required_years j * (15 # 10))
                         (UserProfile.total_experience_years now p)
                 then 90 else 100)
        else (q <- pdiv (UserProfile.total_experience_years now p)
                        (required_years j) ;;
              Ok (q * 80))) ;;
     Ok (pmax 0 (pmin 100 score))).
Proof. reflexivity. Qed.

(** X3.  A candidate who has the required years scores 100 for experience,
    or 90 with more than one and a half times the required years; a
    candidate with fewer years scores less than 80, in proportion to the
    years when these are not negative. *)
Theorem experience_match_thresholds (now : datetime) (p : UserProfile.t)
  (j : Job.t) (v : Q) :
  calculate_experience_match now p j = Ok v ->
  (required_years j <= UserProfile.total_experience_years now p ->
   UserProfile.total_experience_years now p <= required_years j * (15 # 10) ->
   v = 100)
  /\ (required_years j <= UserProfile.total_experience_years now p ->
      required_years j * (15 # 10) < UserProfile.total_experience_years now p ->
      v = 90)
  /\ (UserProfile.total_experience_years now p < required_years j ->
      0 <= v /\ v < 80
      /\ (0 <= UserProfile.total_experience_years now p ->
          v == UserProfile.total_experience_years now p
               / required_years j * 80)).
Proof.
  rewrite calculate_experience_match_eq.
  set (years := UserProfile.total_experience_years now p).
  set (req := required_years j).
  pose proof (required_years_nonneg j) as Hreq. fold req in Hreq.
  destruct (Qleb req years) eqn:E.
  - apply Qleb_true in E. cbn [bind].
    destruct (Qltb (req * (15 # 10)) years) eqn:E2; intros H;
      injection H as <-.
    + apply Qltb_true in E2. repeat split; intros; try lra; reflexivity.
    + apply Qltb_false in E2. repeat split; intros; try lra; reflexivity.
  - apply Qleb_false in E.
    destruct (pdiv years req) as [q|] eqn:Ed; [|discriminate].
    apply pdiv_inv in Ed. destruct Ed as [Hnz ->].
    cbn [bind]. intros H. injection H as <-.
    assert (Hpos : 0 < req) by lra.
    assert (Hlt : years / req < 1).
    { apply Qlt_shift_div_r; [exact Hpos | lra]. }
    assert (Hmin : pmin 100 (years / req * 80) = years / req * 80).
    { unfold pmin. destruct (Qltb _ 100) eqn:El; [reflexivity|].
      apply Qltb_false in El. lra. }
    rewrite Hmin. split; [intros; lra|]. split; [intros; lra|].
    intros _. split; [apply pmax_bounds|]. split.
    + apply Qle_lt_trans with (y := Qmax 0 (years / req * 80)).
      * rewrite <- pmax_Qmax. lra.
      * apply Q.max_lub_lt; lra.
    + intros Hy. unfold pmax. destruct (Qltb 0 _) eqn:El; [reflexivity|].
      apply Qltb_false in El.
      assert (0 <= years / req) by (apply Qle_shift_div_l; lra).
      lra.
Qed.

Lemma experience_match_thresholds_witness :
  exists v,
    calculate_experience_match (Sample.day 2200) Sample.trainee
                               Sample.senior_job = Ok v
    /\ v = 100.
Proof.
  eexists. split; [vm_compute; reflexivity|].
  refine (match experience_match_thresholds (Sample.day 2200) Sample.trainee
                  Sample.senior_job _ eq_refl with
          | conj H _ => H _ _
          end); vm_compute; discriminate.
Defined.

(** ** The education score *)

Lemma find_none_all {A : Type} (f : A -> bool) (l : list A) :
  (forall x, f x = false) -> find f l = None.
Proof.
  intros H. induction l as [|x l IH]; cbn [find]; [reflexivity|].
  now rewrite H.
Qed.

(** X4.  Degree keywords alone are no requirement: when the text of the
    job holds neither "required" nor "must have", a profile that lists
    some education scores 80, whatever its degrees. *)
Theorem education_without_requirement (p : UserProfile.t) (j : Job.t) :
  UserProfile.education p <> [] ->
  str_in "required" (lower (job_text j)) = false ->
  str_in "must have" (lower (job_text j)) = false ->
  calculate_education_match p j = Ok 80.
Proof.
  intros He Hr Hm. unfold calculate_education_match.
  destruct (UserProfile.education p) as [|e es]; [congruence|].
  cbn [is_nil]. rewrite find_none_all; [reflexivity|].
  intros x. rewrite Hr, Hm. apply andb_false_r.
Qed.

(** ** The location score *)

Lemma prefix_refl (s : string) : String.prefix s s = true.
Proof.
  induction s as [|c s IH]; cbn [String.prefix]; [reflexivity|].
  destruct (ascii_dec c c); [exact IH | congruence].
Qed.

Lemma str_in_refl (s : string) : str_in s s = true.
Proof.
  destruct s as [|c s]; [reflexivity|].
  cbn [str_in]. now rewrite prefix_refl.
Qed.

Lemma lower_is_empty (s : string) : is_empty (lower s) = is_empty s.
Proof. destruct s; reflexivity. Qed.

(** X5.  A job that is not remote and whose location is, up to letter
    case, the location of the profile (and not empty) scores 100 for
    location. *)
Theorem location_same_place (p : UserProfile.t) (j : Job.t) :
  Job.remote_option j = false ->
  Job.location j <> "" ->
  lower (Job.location j) = lower (UserProfile.location p) ->
  calculate_location_match p j = 100.
Proof.
  intros Hr Hne Heq. unfold calculate_location_match. rewrite Hr.
  assert (Hj : is_empty (Job.location j) = false).
  { destruct (Job.location j); [congruence | reflexivity]. }
  assert (Hp : is_empty (UserProfile.location p) = false).
  { rewrite <- lower_is_empty, <- Heq, lower_is_empty. exact Hj. }
  rewrite Hj, Hp. cbn [orb]. rewrite Heq, str_in_refl. reflexivity.
Qed.

Lemma education_without_requirement_witness :
  calculate_education_match Sample.austinite Sample.austin_job = Ok 80.
Proof.
  apply (education_without_requirement Sample.austinite Sample.austin_job).
  - discriminate.
  - reflexivity.
  - reflexivity.
Defined.

Lemma location_same_place_witness :
  calculate_location_match Sample.austinite Sample.austin_job = 100.
Proof.
  apply (location_same_place Sample.austinite Sample.austin_job).
  - reflexivity.
  - discriminate.
  - reflexivity.
Defined.

(** ** Salary and compensation *)


Lemma positive_truthy (o : option Z) : 0 < num_of o -> truthy o = true.
Proof.
  destruct o as [z|]; cbn [num_of truthy]; intros H.
  - apply negb_true_iff, Z.eqb_neq. intros ->.
    apply (Qlt_irrefl 0). exact H.
  - exfalso. apply (Qlt_irrefl 0). exact H.
Qed.

Lemma salary_at_least_85 (p : UserProfile.t) (j : Job.t) (v : Q) :
  0 < num_of (UserProfile.min_salary p) ->
  calculate_salary_match p j = Ok v ->
  85 <= v ->
  truthy (or_else (Job.salary_max j) (Job.salary_min j)) = true
  /\ num_of (UserProfile.min_salary p)
     <= num_of (or_else (Job.salary_max j) (Job.salary_min j)).
Proof.
  intros Hpos. unfold calculate_salary_match.
  destruct (truthy (UserProfile.min_salary p)) eqn:Eu; cbn [negb].
  2:{ intros H; injection H as <-. lra. }
  destruct (negb (truthy (Job.salary_min j))
            && negb (truthy (Job.salary_max j))).
  { intros H; injection H as <-. lra. }
  set (user_min := num_of (UserProfile.min_salary p)) in *.
  set (job_max := or_else (Job.salary_max j) (Job.salary_min j)).
  destruct (truthy job_max) eqn:Em; cbn [andb].
  2:{ intros H; injection H as <-. lra. }
  destruct (Qleb user_min (num_of job_max)) eqn:E1.
  { apply Qleb_true in E1. intros _ _. split; [reflexivity | exact E1]. }
  destruct (Qleb (user_min * (9 # 10)) (num_of job_max)) eqn:E2.
  { intros H; injection H as <-. lra. }
  rewrite pdiv_ok by lra. cbn [bind]. intros H; injection H as <-.
  apply Qleb_false in E2.
  assert (num_of job_max / user_min < 9 # 10).
  { apply Qlt_shift_div_r; [exact Hpos | lra]. }
  intros Hv. exfalso.
  assert (pmax 0 (num_of job_max / user_min * 60) <= 54).
  { apply pmax_le; lra. }
  lra.
Qed.

(** X6.  For a profile with a positive minimum salary, a score whose
    salary match is at least 85 (the job pays the expectation) has a
    compensation score of at least 80. *)
Theorem salary_match_implies_compensation (now : datetime)
  (p : UserProfile.t) (j : Job.t) (ms : MatchScore.t) :
  0 < num_of (UserProfile.min_salary p) ->
  match_job now p j = Ok ms ->
  85 <= MatchScore.salary_match_score ms ->
  80 <= MatchScore.compensation_score ms.
Proof.
  intros Hpos H Hsa.
  destruct (match_job_inv now p j ms H)
    as (sk & ex & ed & sa & co & _ & _ & _ & Esa & Eco & ->).
  unfold assembled in *.
  cbn [MatchScore.salary_match_score MatchScore.compensation_score] in *.
  destruct (salary_at_least_85 p j sa Hpos Esa Hsa) as [Ht Hge].
  unfold calculate_compensation_score in Eco.
  assert (Hdata : negb (truthy (Job.salary_max j))
                  && negb (truthy (Job.salary_min j)) = false).
  { unfold or_else in Ht.
    destruct (truthy (Job.salary_max j)); [reflexivity|].
    cbn [negb andb]. now rewrite Ht. }
  rewrite Hdata in Eco.
  pose proof (positive_truthy _ Hpos) as Hu.
  rewrite Hu in Eco. rewrite pdiv_ok in Eco by lra. cbn [bind] in Eco.
  set (ratio := num_of (or_else (Job.salary_max j) (Job.salary_min j))
                / num_of (UserProfile.min_salary p)) in *.
  assert (Hr : 1 <= ratio).
  { apply Qle_shift_div_l; [exact Hpos | lra]. }
  destruct (Qleb (13 # 10) ratio); [injection Eco as <-; lra|].
  destruct (Qleb (11 # 10) ratio); [injection Eco as <-; lra|].
  destruct (Qleb 1 ratio) eqn:E1; [injection Eco as <-; lra|].
  apply Qleb_false in E1. lra.
Qed.

Lemma salary_match_implies_compensation_witness :
  exists ms,
    match_job (Sample.day 900) Sample.austinite Sample.austin_job = Ok ms
    /\ 80 <= MatchScore.compensation_score ms.
Proof.
  eexists. split; [vm_compute; reflexivity|].
  apply (salary_match_implies_compensation (Sample.day 900) Sample.austinite
           Sample.austin_job).
  - vm_compute. reflexivity.
  - vm_compute. reflexivity.
  - vm_compute. discriminate.
Defined.

Lemma hiring_likelihood_no_penalty_witness :
  exists ms,
    match_job 0%Z Sample.pythonist Sample.cloud_job = Ok ms
    /\ MatchScore.missing_skills ms = ["Aws"]
    /\ MatchScore.hiring_likelihood ms ==
         Qmax 5 (Qmin 95 ((6 # 10) * MatchScore.overall_score ms
                          + (25 # 100) * MatchScore.skill_match_score ms
                          + (15 # 100) * MatchScore.experience_match_score ms
                          + Qmin 10 (2 * of_nat (in_demand_count
                                                   Sample.pythonist)))).
Proof.
  eexists. split; [vm_compute; reflexivity|]. split; [reflexivity|].
  apply (hiring_likelihood_no_penalty 0%Z Sample.pythonist Sample.cloud_job).
  vm_compute. reflexivity.
Defined.

(** ** The skill lists *)

Lemma set_add_NoDup (x : string) (s : list string) :
  NoDup s -> NoDup (set_add x s).
Proof.
  induction s as [|y s IH]; intros H; cbn [set_add].
  - constructor; [intros [] | constructor].
  - destruct (String.eqb x y) eqn:E; [exact H|].
    inversion H as [|? ? Hy Hs]; subst. constructor.
    + rewrite set_add_In. intros [-> | Hin]; [|contradiction].
      rewrite String.eqb_refl in E. discriminate.
    + now apply IH.
Qed.

Lemma set_of_NoDup (l : list string) : NoDup (set_of l).
Proof.
  unfold set_of. generalize (NoDup_nil string).
  generalize (@nil string) as acc.
  induction l as [|x l IH]; intros acc Hacc; cbn [fold_left]; [exact Hacc|].
  apply IH. now apply set_add_NoDup.
Qed.

Lemma filter_split_perm {A : Type} (f : A -> bool) (l : list A) :
  Permutation (filter f l ++ filter (fun x => negb (f x)) l) l.
Proof.
  induction l as [|x l IH]; cbn [filter]; [constructor|].
  destruct (f x); cbn [negb app].
  - now constructor.
  - rewrite <- Permutation_middle. now constructor.
Qed.

(** X9.  [_get_skill_details] lists every distinct skill name of the
    profile (in lower case) exactly once, in title case, either as a
    matched or as a bonus skill. *)
Theorem matched_and_bonus_partition (p : UserProfile.t) (j : Job.t) :
  NoDup (user_skills_lower p)
  /\ Permutation (matched_of p j ++ bonus_of p j)
                 (map title (user_skills_lower p))
  /\ forall name,
       In name (user_skills_lower p) <->
       exists s, lower (Skill.name s) = name /\ In s (UserProfile.skills p).
Proof.
  split; [apply set_of_NoDup|]. split.
  - unfold matched_of, bonus_of, get_skill_details. cbn [fst snd].
    rewrite <- map_app. apply Permutation_map. apply filter_split_perm.
  - intros name. unfold user_skills_lower. rewrite set_of_In, in_map_iff.
    reflexivity.
Qed.

Lemma filter_nil_iff {A : Type} (f : A -> bool) (l : list A) :
  filter f l = [] <-> forall x, In x l -> f x = false.
Proof.
  induction l as [|x l IH]; cbn [filter].
  - split; [intros _ y [] | reflexivity].
  - destruct (f x) eqn:E.
    + split; [discriminate|]. intros H. specialize (H x (or_introl eq_refl)).
      congruence.
    + rewrite IH. split.
      * intros H y [<- | Hy]; auto.
      * intros H y Hy. apply H. now right.
Qed.

Lemma filter_all_iff {A : Type} (f : A -> bool) (l : list A) :
  List.length (filter f l) = List.length l <->
  forall x, In x l -> f x = true.
Proof.
  induction l as [|x l IH]; cbn [filter].
  - split; [intros _ y [] | reflexivity].
  - destruct (f x) eqn:E; cbn [List.length].
    + split.
      * intros H y [<- | Hy]; [exact E|]. apply IH; [lia | exact Hy].
      * intros H. f_equal. apply IH. intros y Hy. apply H. now right.
    + split.
      * intros H. pose proof (filter_length_le f l). lia.
      * intros H. specialize (H x (or_introl eq_refl)). congruence.
Qed.

Lemma map_nil_iff {A B : Type} (f : A -> B) (l : list A) :
  map f l = [] <-> l = [].
Proof. destruct l; split; (reflexivity || discriminate). Qed.

Lemma missing_test (p : UserProfile.t) (s : string) :
  negb (mem (lower s) (user_skills_lower p))
  && negb (existsb (skills_match (lower s)) (user_skills_lower p))
  = negb (equivalent_to_some p s).
Proof.
  rewrite <- has_skill_equivalent. unfold has_skill.
  now rewrite negb_orb.
Qed.

(** X10.  The missing skills of [_get_skill_details] agree with the count
    of [_calculate_skill_match]: the list of missing skills is empty exactly
    when every required skill of the job counts as matched, and then a job
    that requires some skill scores at least 70 for skills. *)
Theorem missing_skills_agree (p : UserProfile.t) (j : Job.t) :
  (missing_of p j = [] <->
   matched p (Job.required_skills j) = List.length (Job.required_skills j))
  /\ (Job.required_skills j <> [] ->
      missing_of p j = [] ->
      exists v, calculate_skill_match p j = Ok v /\ 70 <= v).
Proof.
  assert (Hiff : missing_of p j = [] <->
                 matched p (Job.required_skills j)
                 = List.length (Job.required_skills j)).
  { unfold missing_of, get_skill_details. cbn [fst snd].
    rewrite map_nil_iff, filter_nil_iff. unfold matched.
    rewrite filter_all_iff. split.
    - intros H s Hs.
      specialize (H (lower s)).
      rewrite set_of_In, in_map_iff in H.
      specialize (H (ex_intro _ s (conj eq_refl Hs))).
      fold (user_skills_lower p) in H.
      rewrite missing_test in H. now apply negb_false_iff in H.
    - intros H r Hr. rewrite set_of_In, in_map_iff in Hr.
      destruct Hr as (s & <- & Hs). fold (user_skills_lower p).
      rewrite missing_test. apply negb_false_iff. now apply H. }
  split; [exact Hiff|].
  intros Hne Hm. apply Hiff in Hm.
  eexists. split; [apply calculate_skill_match_listed; now left|].
  assert (Hs : share p (Job.required_skills j) == 1).
  { unfold share. destruct (Job.required_skills j) as [|r rs] eqn:E;
      [congruence|].
    rewrite Hm. unfold Qdiv. apply Qmult_inv_r.
    assert (0 < of_nat (List.length (r :: rs)))
      by (apply of_nat_pos; cbn [List.length]; lia).
    lra. }
  pose proof (share_bounds p (Job.preferred_skills j)) as [Hp _].
  apply pmin_bounds; [lra|].
  rewrite !share_eq, Hs. lra.
Qed.

(** ** Errors in a batch *)

Lemma mapM_raises {A B : Type} (f : A -> result B) (l : list A) (x : A)
  (e : exn) :
  In x l -> f x = Raise e -> exists e', mapM f l = Raise e'.
Proof.
  induction l as [|y l IH]; intros Hin Hx; [destruct Hin|].
  cbn [mapM]. destruct Hin as [-> | Hin].
  - rewrite Hx. cbn [bind]. now exists e.
  - destruct (f y) as [b|e0]; cbn [bind]; [|now exists e0].
    destruct (IH Hin Hx) as [e' ->]. cbn [bind]. now exists e'.
Qed.

(** X11.  [rank_jobs] scores all jobs before it sorts and isolates no job:
    when scoring raises for one job of the list, the ranking of the whole
    list raises, under every sort key. *)
Theorem rank_jobs_no_isolation (now : datetime) (p : UserProfile.t)
  (jobs : list Job.t) (sort_by : string) (j : Job.t) (e : exn) :
  In j jobs ->
  match_job now p j = Raise e ->
  exists e', rank_jobs now p jobs sort_by = Raise e'.
Proof.
  intros Hin Hj. unfold rank_jobs.
  destruct (mapM_raises (fun job => s <- match_job now p job ;; Ok (job, s))
              jobs j e Hin) as [e' ->].
  - rewrite Hj. reflexivity.
  - cbn [bind]. now exists e'.
Qed.

Lemma rank_jobs_no_isolation_witness :
  exists e',
    rank_jobs (Sample.day 0) Sample.newcomer
              [Sample.blank_job; Sample.entry_job; Sample.cloud_job]
              "overall" = Raise e'.
Proof.
  apply (rank_jobs_no_isolation (Sample.day 0) Sample.newcomer
           [Sample.blank_job; Sample.entry_job; Sample.cloud_job] "overall"
           Sample.entry_job ZeroDivisionError).
  - right. left. reflexivity.
  - vm_compute. reflexivity.
Defined.

(** ** Durations *)


Lemma years_of_days_le (d1 d2 : Z) :
  (d1 <= d2)%Z -> inject_Z d1 / (36525 # 100) <= inject_Z d2 / (36525 # 100).
Proof.
  intros H. unfold Qdiv. apply Qmult_le_compat_r.
  - now rewrite <- Zle_Qle.
  - vm_compute. discriminate.
Qed.





Lemma duration_years_mono (now1 now2 : datetime) (e : Experience.t) :
  (now1 <= now2)%Z ->
  Experience.duration_years now1 e <= Experience.duration_years now2 e.
Proof.
  intros H. unfold Experience.duration_years, timedelta_days.
  apply years_of_days_le.
  destruct (Experience.end_date e); [lia|].
  apply Z.div_le_mono; [reflexivity | lia].
Qed.

(** X13.  The total experience of a profile never shrinks as the clock
    advances: it counts the whole days between the start of each position
    and its end, or now. *)
Theorem total_experience_years_mono (now1 now2 : datetime)
  (p : UserProfile.t) :
  (now1 <= now2)%Z ->
  UserProfile.total_experience_years now1 p
  <= UserProfile.total_experience_years now2 p.
Proof.
  intros H. unfold UserProfile.total_experience_years.
  induction (UserProfile.experiences p) as [|e l IH]; cbn [map qsum].
  - lra.
  - pose proof (duration_years_mono now1 now2 e H). lra.
Qed.

Lemma total_experience_years_mono_witness :
  UserProfile.total_experience_years (Sample.day 365) Sample.trainee
  <= UserProfile.total_experience_years (Sample.day 2200) Sample.trainee.
Proof.
  apply (total_experience_years_mono (Sample.day 365) (Sample.day 2200)
           Sample.trainee).
  vm_compute. discriminate.
Defined.

(** * Providers and the command line *)

(** ** Parsed salaries *)






(** ** The rows of [cmd_match] *)

Lemma slice_to_prefix {A : Type} (n : Z) (l : list A) :
  exists rest, l = (Seq.slice_to n l ++ rest)%list.
Proof.
  unfold Seq.slice_to. destruct (0 <=? n)%Z.
  - exists (skipn (Z.to_nat n) l). symmetry. apply firstn_skipn.
  - exists (skipn (List.length l - Z.to_nat (- n)) l). symmetry.
    apply firstn_skipn.
Qed.

Lemma slice_to_length {A : Type} (n : Z) (l : list A) :
  (0 <= n)%Z ->
  List.length (Seq.slice_to n l) = Nat.min (Z.to_nat n) (List.length l).
Proof.
  intros H. unfold Seq.slice_to.
  apply Z.leb_le in H. rewrite H. apply length_firstn.
Qed.

Lemma sorted_prefix_best {A : Type} (R : A -> A -> Prop) (l1 l2 : list A) :
  StronglySorted R (l1 ++ l2)%list ->
  Forall (fun a => Forall (R a) l2) l1.
Proof.
  induction l1 as [|a l1 IH]; cbn [app]; intros H; [constructor|].
  inversion H as [|? ? Hs Hf]; subst. constructor.
  - apply Forall_app in Hf. apply Hf.
  - now apply IH.
Qed.

Lemma sort_map_keys (sort sort_by : string) :
  Dict.get Cli.sort_map sort = Some sort_by -> In sort_by recognized_keys.
Proof.
  unfold Cli.sort_map. cbn [Dict.get].
  repeat (destruct (String.eqb _ sort);
          [intros H; injection H as <-; cbn; tauto|]).
  discriminate.
Qed.

(** X16.  The rows that [cmd_match] prints are the head of the ranking:
    every job left out ranks no higher than any job shown, and for a
    number [top] that is not negative there are [min(top, number of jobs)]
    rows.  The three sort options of the command are keys of the ranking,
    so the lookup of the option never fails. *)
Theorem cmd_match_shows_best (now : datetime) (p : UserProfile.t)
  (jobs : list Job.t) (sort : string) (top : Z) :
  In sort ["overall"; "likelihood"; "compensation"] ->
  exists sort_by,
    Dict.get Cli.sort_map sort = Some sort_by
    /\ In sort_by recognized_keys
    /\ forall rows,
         Cli.cmd_match now p jobs sort top = Cli.Shown rows ->
         exists rest,
           rank_jobs now p jobs sort_by = Ok (rows ++ rest)%list
           /\ Forall (fun shown =>
                        Forall (fun hidden =>
                                  selected_score sort_by hidden
                                  <= selected_score sort_by shown) rest)
                     rows
           /\ ((0 <= top)%Z ->
               List.length rows
               = Nat.min (Z.to_nat top) (List.length jobs)).
Proof.
  intros Hs.
  assert (E : exists sort_by, Dict.get Cli.sort_map sort = Some sort_by).
  { cbn [In] in Hs. destruct Hs as [<- | [<- | [<- | []]]];
      eexists; reflexivity. }
  destruct E as [sort_by E]. exists sort_by. split; [exact E|].
  pose proof (sort_map_keys sort sort_by E) as Hkey.
  split; [exact Hkey|].
  intros rows. unfold Cli.cmd_match. rewrite E.
  destruct (rank_jobs now p jobs sort_by) as [ranked|] eqn:Er;
    [|discriminate].
  intros H. injection H as <-.
  destruct (slice_to_prefix top ranked) as [rest Hrest].
  exists rest. split; [now rewrite <- Hrest|].
  unfold rank_jobs in Er. rewrite (key_of_recognized sort_by Hkey) in Er.
  destruct (mapM _ jobs) as [scored|] eqn:Em; [|discriminate].
  cbn [bind] in Er. injection Er as Er.
  split.
  - apply (sorted_prefix_best
             (fun a b => selected_score sort_by b <= selected_score sort_by a)).
    rewrite <- Hrest, <- Er. apply sort_reverse_sorted.
  - intros Htop. rewrite slice_to_length by exact Htop. f_equal.
    rewrite <- Er.
    rewrite <- (Permutation_length
                  (sort_reverse_perm (selected_score sort_by) scored)).
    destruct (mapM_scored now p jobs scored Em) as [Hm _].
    rewrite <- Hm. symmetry. apply length_map.
Qed.

Lemma cmd_match_shows_best_witness :
  exists rows,
    Cli.cmd_match 0%Z Sample.pythonist
      [Sample.blank_job; Sample.cloud_job; Sample.python_job]
      "likelihood" 2 = Cli.Shown rows
    /\ List.length rows = 2%nat.
Proof.
  destruct (cmd_match_shows_best 0%Z Sample.pythonist
              [Sample.blank_job; Sample.cloud_job; Sample.python_job]
              "likelihood" 2) as (sort_by & _ & _ & H).
  { right. left. reflexivity. }
  destruct (Cli.cmd_match 0%Z Sample.pythonist
              [Sample.blank_job; Sample.cloud_job; Sample.python_job]
              "likelihood" 2) as [rows|f] eqn:E;
    [|vm_compute in E; discriminate].
  exists rows. split; [reflexivity|].
  destruct (H rows eq_refl) as (rest & _ & _ & Hlen).
  rewrite Hlen by lia. reflexivity.
Defined.

(** ** Deduplicated jobs *)

Lemma unique_from_keys (key : Job.t -> string) (seen : list string)
  (jobs : list Job.t) :
  NoDup (map key (Provider.unique_from key seen jobs))
  /\ forall j, In j (Provider.unique_from key seen jobs) ->
               In j jobs /\ ~ In (key j) seen.
Proof.
  revert seen. induction jobs as [|job jobs IH]; intros seen;
    cbn [Provider.unique_from].
  - split; [constructor | intros j []].
  - destruct (mem (key job) seen) eqn:E.
    + destruct (IH seen) as [H1 H2]. split; [exact H1|].
      intros j Hj. destruct (H2 j Hj). split; [now right | assumption].
    + destruct (IH (set_add (key job) seen)) as [H1 H2].
      assert (Hnot : ~ In (key job) seen).
      { intros Hin. unfold mem in E.
        assert (existsb (String.eqb (key job)) seen = true).
        { apply existsb_exists. exists (key job). split; [exact Hin|].
          apply String.eqb_refl. }
        congruence. }
      split.
      * cbn [map]. constructor; [|exact H1].
        rewrite in_map_iff. intros (j & Hk & Hj).
        destruct (H2 j Hj) as [_ Hn]. apply Hn.
        rewrite set_add_In. now left.
      * intros j [<- | Hj]; [split; [now left | exact Hnot]|].
        destruct (H2 j Hj) as [Hin Hn]. split; [now right|].
        intros Hs. apply Hn. rewrite set_add_In. now right.
Qed.

Lemma unique_from_covers (key : Job.t -> string) (seen : list string)
  (jobs : list Job.t) (j : Job.t) :
  In j jobs ->
  In (key j) seen
  \/ In (key j) (map key (Provider.unique_from key seen jobs)).
Proof.
  revert seen. induction jobs as [|job jobs IH]; intros seen Hj;
    [destruct Hj|].
  cbn [Provider.unique_from]. destruct (mem (key job) seen) eqn:E.
  - destruct Hj as [-> | Hj]; [|now apply IH].
    left. unfold mem in E. apply existsb_exists in E.
    destruct E as (k & Hk & Ek). apply String.eqb_eq in Ek. now subst.
  - cbn [map In]. destruct Hj as [-> | Hj]; [right; now left|].
    destruct (IH (set_add (key job) seen) Hj) as [Hs | Hu].
    + rewrite set_add_In in Hs. destruct Hs as [Hs | Hs];
        [right; left; now symmetry | now left].
    + right. now right.
Qed.

Lemma firstn_incl {A : Type} (n : nat) (l : list A) (x : A) :
  In x (firstn n l) -> In x l.
Proof.
  revert n. induction l as [|y l IH]; intros n.
  - now rewrite firstn_nil.
  - destruct n as [|n]; cbn [firstn]; [intros []|].
    intros [-> | H]; [now left | right; now apply (IH n)].
Qed.

Lemma firstn_NoDup {A : Type} (n : nat) (l : list A) :
  NoDup l -> NoDup (firstn n l).
Proof.
  revert n. induction l as [|x l IH]; intros n H.
  - rewrite firstn_nil. constructor.
  - destruct n as [|n]; cbn [firstn]; [constructor|].
    inversion H as [|? ? Hx Hl]; subst. constructor; [|now apply IH].
    intros Hin. apply Hx. revert Hin. apply firstn_incl.
Qed.

Lemma slice_to_In {A : Type} (n : Z) (l : list A) (x : A) :
  In x (Seq.slice_to n l) -> In x l.
Proof.
  unfold Seq.slice_to. destruct (0 <=? n)%Z; apply firstn_incl.
Qed.

Lemma slice_to_map {A B : Type} (f : A -> B) (n : Z) (l : list A) :
  map f (Seq.slice_to n l) = Seq.slice_to n (map f l).
Proof.
  unfold Seq.slice_to. rewrite length_map.
  destruct (0 <=? n)%Z; symmetry; apply firstn_map.
Qed.

Lemma slice_to_all {A : Type} (n : Z) (l : list A) :
  (Z.of_nat (List.length l) <= n)%Z -> Seq.slice_to n l = l.
Proof.
  intros H. unfold Seq.slice_to.
  assert (E : (0 <=? n)%Z = true) by (apply Z.leb_le; lia).
  rewrite E. apply firstn_all2. lia.
Qed.

Lemma unique_from_length (key : Job.t -> string) (seen : list string)
  (jobs : list Job.t) :
  (List.length (Provider.unique_from key seen jobs) <= List.length jobs)%nat.
Proof.
  revert seen. induction jobs as [|job jobs IH]; intros seen;
    cbn [Provider.unique_from List.length]; [lia|].
  destruct (mem (key job) seen); cbn [List.length].
  - specialize (IH seen). lia.
  - specialize (IH (set_add (key job) seen)). lia.
Qed.

(** X17.  The jobs that [JobAggregator.search_jobs] returns are jobs of
    the providers, no two of them with the same title and company up to
    letter case; with a limit that is not negative there are at most
    [limit] of them, and with a limit of at least the number of jobs found
    every title and company that was found is in the result. *)
Theorem unique_jobs_deduplicated (all_jobs : list Job.t) (limit : Z) :
  NoDup (map Provider.title_company (Provider.unique_jobs all_jobs limit))
  /\ (forall j, In j (Provider.unique_jobs all_jobs limit) -> In j all_jobs)
  /\ ((0 <= limit)%Z ->
      (List.length (Provider.unique_jobs all_jobs limit)
       <= Z.to_nat limit)%nat)
  /\ ((Z.of_nat (List.length all_jobs) <= limit)%Z ->
      forall j,
        In j all_jobs ->
        In (Provider.title_company j)
           (map Provider.title_company
                (Provider.unique_jobs all_jobs limit))).
Proof.
  unfold Provider.unique_jobs.
  destruct (unique_from_keys Provider.title_company [] all_jobs) as [Hn Hi].
  repeat split.
  - rewrite slice_to_map. unfold Seq.slice_to.
    destruct (0 <=? limit)%Z; now apply firstn_NoDup.
  - intros j Hj. apply slice_to_In in Hj. now apply Hi.
  - intros Hl. rewrite slice_to_length by exact Hl. lia.
  - intros Hl j Hj. rewrite slice_to_all.
    + destruct (unique_from_covers Provider.title_company [] all_jobs j Hj)
        as [[] | H]. exact H.
    + pose proof (unique_from_length Provider.title_company [] all_jobs).
      lia.
Qed.

(** * The application tracker *)

(** ** Dictionaries *)

Section DictFacts.

Context {V : Type}.
Implicit Types (d : Dict.t (V := V)) (k : string) (v : V).

Lemma get_set_same d k v : Dict.get (Dict.set d k v) k = Some v.
Proof.
  induction d as [|[k' v'] d IH]; cbn [Dict.set Dict.get].
  - now rewrite String.eqb_refl.
  - destruct (String.eqb k' k) eqn:E; cbn [Dict.get]; rewrite E;
      [reflexivity | exact IH].
Qed.

Lemma get_set_other d k k0 v :
  k0 <> k -> Dict.get (Dict.set d k v) k0 = Dict.get d k0.
Proof.
  intros Hne. induction d as [|[k' v'] d IH]; cbn [Dict.set Dict.get].
  - destruct (String.eqb k k0) eqn:E; [|reflexivity].
    apply String.eqb_eq in E. congruence.
  - destruct (String.eqb k' k) eqn:E; cbn [Dict.get].
    + apply String.eqb_eq in E. subst k'.
      destruct (String.eqb k k0) eqn:E0; [|reflexivity].
      apply String.eqb_eq in E0. congruence.
    + now rewrite IH.
Qed.

Lemma keys_set_present d k v v0 :
  Dict.get d k = Some v0 -> Dict.keys (Dict.set d k v) = Dict.keys d.
Proof.
  induction d as [|[k' v'] d IH]; cbn [Dict.set Dict.get]; [discriminate|].
  destruct (String.eqb k' k) eqn:E; intros H; [reflexivity|].
  unfold Dict.keys in *. cbn [map fst]. now rewrite IH.
Qed.

Lemma keys_set_absent d k v :
  Dict.get d k = None -> Dict.keys (Dict.set d k v) = (Dict.keys d ++ [k])%list.
Proof.
  induction d as [|[k' v'] d IH]; cbn [Dict.set Dict.get]; [reflexivity|].
  destruct (String.eqb k' k) eqn:E; intros H; [discriminate|].
  unfold Dict.keys in *. cbn [map fst app]. now rewrite IH.
Qed.

Lemma get_del_same d k : Dict.get (Dict.del d k) k = None.
Proof.
  unfold Dict.del.
  induction d as [|[k' v'] d IH]; cbn [filter fst]; [reflexivity|].
  destruct (String.eqb k' k) eqn:E; cbn [negb]; [exact IH|].
  cbn [Dict.get]. now rewrite E.
Qed.

Lemma get_del_other d k k0 :
  k0 <> k -> Dict.get (Dict.del d k) k0 = Dict.get d k0.
Proof.
  intros Hne. unfold Dict.del.
  induction d as [|[k' v'] d IH]; cbn [filter fst]; [reflexivity|].
  destruct (String.eqb k' k) eqn:E; cbn [negb Dict.get].
  - apply String.eqb_eq in E. subst k'.
    destruct (String.eqb k k0) eqn:E0; [|exact IH].
    apply String.eqb_eq in E0. congruence.
  - now rewrite IH.
Qed.

End DictFacts.

(** ** Adding, finding and removing applications *)

(** X19.  An application that [add_application] stores is found again
    under its identifier by [get_application]; the other identifiers keep
    what they had; a new identifier comes last in the tracker and a known
    one keeps its place. *)
Theorem add_then_get (apps : Dict.t (V := Application.t))
  (a : Application.t) :
  snd (ApplicationTracker.add_application apps a) = Application.id a
  /\ ApplicationTracker.get_application
       (fst (ApplicationTracker.add_application apps a)) (Application.id a)
     = Some a
  /\ (forall k,
        k <> Application.id a ->
        ApplicationTracker.get_application
          (fst (ApplicationTracker.add_application apps a)) k
        = ApplicationTracker.get_application apps k)
  /\ Dict.keys (fst (ApplicationTracker.add_application apps a))
     = if Dict.contains apps (Application.id a) then Dict.keys apps
       else (Dict.keys apps ++ [Application.id a])%list.
Proof.
  unfold ApplicationTracker.add_application,
    ApplicationTracker.get_application. cbn [fst snd].
  split; [reflexivity|]. split; [apply get_set_same|].
  split; [intros k Hk; now apply get_set_other|].
  unfold Dict.contains.
  destruct (Dict.get apps (Application.id a)) as [v0|] eqn:E.
  - apply (keys_set_present _ _ _ v0 E).
  - apply (keys_set_absent _ _ _ E).
Qed.

(** X20.  [remove_application] reports whether the identifier was
    tracked; afterwards [get_application] finds nothing under it, and the
    other identifiers keep what they had.  An unknown identifier leaves the
    tracker as it is. *)
Theorem remove_then_get (apps : Dict.t (V := Application.t)) (k : string) :
  snd (ApplicationTracker.remove_application apps k) = Dict.contains apps k
  /\ ApplicationTracker.get_application
       (fst (ApplicationTracker.remove_application apps k)) k = None
  /\ (forall k0,
        k0 <> k ->
        ApplicationTracker.get_application
          (fst (ApplicationTracker.remove_application apps k)) k0
        = ApplicationTracker.get_application apps k0)
  /\ (Dict.contains apps k = false ->
      fst (ApplicationTracker.remove_application apps k) = apps).
Proof.
  unfold ApplicationTracker.remove_application,
    ApplicationTracker.get_application, Dict.contains.
  destruct (Dict.get apps k) as [v|] eqn:E; cbn [negb fst snd].
  - split; [reflexivity|]. split; [apply get_del_same|].
    split; [intros k0 Hk; now apply get_del_other | discriminate].
  - split; [reflexivity|]. split; [exact E|].
    split; reflexivity.
Qed.

(** ** Status updates *)

Lemma status_eqb_eq (a b : ApplicationStatus) :
  Status.eqb a b = true <-> a = b.
Proof.
  split.
  - destruct a, b; cbn; intros H; (reflexivity || discriminate).
  - intros <-. destruct a; reflexivity.
Qed.

Lemma status_eqb_neq (a b : ApplicationStatus) :
  Status.eqb a b = false <-> a <> b.
Proof.
  rewrite <- status_eqb_eq. destruct (Status.eqb a b); split; congruence.
Qed.

(** X21.  [update_status] touches one application only: the identifiers
    of the tracker and their order stay, every other identifier keeps its
    application, and an unknown identifier gives [None] and leaves the
    tracker as it is.  The updated application keeps its identifier, job
    and score, and has the new status and the time of the update. *)
Theorem update_status_frame (isoformat : datetime -> string)
  (apps : Dict.t (V := Application.t)) (now : datetime) (k : string)
  (status : ApplicationStatus) (note : option string) :
  Dict.keys
    (fst (ApplicationTracker.update_status isoformat apps now k status note))
  = Dict.keys apps
  /\ (forall k0,
        k0 <> k ->
        ApplicationTracker.get_application
          (fst (ApplicationTracker.update_status isoformat apps now k status
                  note)) k0
        = ApplicationTracker.get_application apps k0)
  /\ (ApplicationTracker.get_application apps k = None ->
      ApplicationTracker.update_status isoformat apps now k status note
      = (apps, None))
  /\ (forall a,
        ApplicationTracker.get_application apps k = Some a ->
        exists a',
          snd (ApplicationTracker.update_status isoformat apps now k status
                 note) = Some a'
          /\ ApplicationTracker.get_application
               (fst (ApplicationTracker.update_status isoformat apps now k
                       status note)) k = Some a'
          /\ Application.status a' = status
          /\ Application.last_updated a' = now
          /\ Application.id a' = Application.id a
          /\ Application.job a' = Application.job a
          /\ Application.match_score a' = Application.match_score a).
Proof.
  unfold ApplicationTracker.update_status,
    ApplicationTracker.get_application.
  destruct (Dict.get apps k) as [a|] eqn:E; cbn [fst snd].
  - split; [apply (keys_set_present _ _ _ a E)|].
    split; [intros k0 Hk; now apply get_set_other|].
    split; [discriminate|].
    intros a0 H. injection H as <-. eexists.
    split; [reflexivity|]. split; [apply get_set_same|].
    destruct (ApplicationTracker.given note),
      (Status.eqb status APPLIED
       && negb (Status.eqb (Application.status a) APPLIED)),
      (Status.among status [UNDER_REVIEW; INTERVIEW_SCHEDULED]);
      repeat split; reflexivity.
  - split; [reflexivity|]. split; [reflexivity|].
    split; [reflexivity | discriminate].
Qed.

(** X22.  [update_status] keeps the history of an application: a response
    that was received stays received, the notes are only appended to, and
    the date of application changes only when the application moves to
    APPLIED from another status, to the time of the update. *)
Theorem update_status_history (isoformat : datetime -> string)
  (apps : Dict.t (V := Application.t)) (now : datetime) (k : string)
  (status : ApplicationStatus) (note : option string)
  (a a' : Application.t) :
  ApplicationTracker.get_application apps k = Some a ->
  snd (ApplicationTracker.update_status isoformat apps now k status note)
  = Some a' ->
  (Application.response_received a = true ->
   Application.response_received a' = true)
  /\ (exists added,
        Application.notes a' = (Application.notes a ++ added)%list)
  /\ (status <> APPLIED \/ Application.status a = APPLIED ->
      Application.applied_at a' = Application.applied_at a)
  /\ (status = APPLIED -> Application.status a <> APPLIED ->
      Application.applied_at a' = Some now).
Proof.
  unfold ApplicationTracker.update_status,
    ApplicationTracker.get_application.
  intros E. rewrite E. cbn [snd]. intros H. injection H as <-.
  destruct (Status.eqb status APPLIED) eqn:Es;
    [apply status_eqb_eq in Es | apply status_eqb_neq in Es];
    (destruct (Status.eqb (Application.status a) APPLIED) eqn:Eo;
     [apply status_eqb_eq in Eo | apply status_eqb_neq in Eo]);
    cbn [andb negb];
    repeat match goal with
           | |- context [if ?b then _ else _] => destruct b
           end;
    cbn [Application.response_received Application.notes
         Application.applied_at Application.set_status
         Application.set_last_updated Application.append_note
         Application.set_applied_at Application.set_response_date
         Application.set_response_received];
    (split; [intros; first [assumption | reflexivity]|]);
    (split; [first [ now (exists []; rewrite app_nil_r)
                   | eexists; reflexivity ]|]);
    split; intros; try reflexivity; try tauto; try congruence.
Qed.

Lemma update_status_history_witness :
  exists a a',
    ApplicationTracker.get_application Sample.tracker0 "a-1" = Some a
    /\ snd (ApplicationTracker.update_status Sample.stamp Sample.tracker0
              (Sample.day 9) "a-1" UNDER_REVIEW None) = Some a'
    /\ Application.applied_at a = Some (Sample.day 4)
    /\ Application.applied_at a' = Some (Sample.day 4).
Proof.
  destruct (ApplicationTracker.get_application Sample.tracker0 "a-1")
    as [a|] eqn:Ea; [|vm_compute in Ea; discriminate].
  destruct (snd (ApplicationTracker.update_status Sample.stamp
                   Sample.tracker0 (Sample.day 9) "a-1" UNDER_REVIEW None))
    as [a'|] eqn:Ea'; [|vm_compute in Ea'; discriminate].
  exists a, a'. split; [reflexivity|]. split; [reflexivity|].
  destruct (update_status_history Sample.stamp Sample.tracker0 (Sample.day 9)
              "a-1" UNDER_REVIEW None a a' Ea Ea') as (_ & _ & Hkeep & _).
  assert (Happ : Application.applied_at a = Some (Sample.day 4)).
  { vm_compute in Ea. injection Ea as <-. reflexivity. }
  split; [exact Happ|].
  rewrite Hkeep; [exact Happ | left; discriminate].
Defined.

(** ** Statistics *)

Lemma by_status_sum {S : Type} (value : S -> string) (count : S -> nat)
  (l : list S) :
  list_sum
    (map snd
       (flat_map (fun s => if (0 <? count s)%nat then [(value s, count s)]
                           else []) l))
  = list_sum (map count l).
Proof.
  induction l as [|s l IH]; [reflexivity|].
  cbn [flat_map map]. rewrite map_app, list_sum_app, IH.
  destruct (0 <? count s)%nat eqn:E; simpl; [lia|].
  apply Nat.ltb_ge in E. lia.
Qed.

Lemma status_counts_total (l : list Application.t) :
  list_sum
    (map (fun s =>
            List.length
              (filter (fun app => Status.eqb (Application.status app) s) l))
         Status.all)
  = List.length l.
Proof.
  unfold Status.all. simpl map. simpl list_sum.
  induction l as [|a l IH]; [reflexivity|].
  cbn [filter]. destruct (Application.status a);
    cbn [Status.eqb List.length]; lia.
Qed.

Lemma filter_length_le_filter {A : Type} (f g : A -> bool) (l : list A) :
  (forall x, In x l -> f x = true -> g x = true) ->
  (List.length (filter f l) <= List.length (filter g l))%nat.
Proof.
  induction l as [|x l IH]; intros H; cbn [filter]; [lia|].
  assert (IH' : (List.length (filter f l) <= List.length (filter g l))%nat).
  { apply IH. intros y Hy. apply H. now right. }
  destruct (f x) eqn:Ef.
  - rewrite (H x (or_introl eq_refl) Ef). cbn [List.length]. lia.
  - destruct (g x); cbn [List.length]; lia.
Qed.

Lemma qsum_range (lo hi : Q) (l : list Q) :
  Forall (in_range lo hi) l ->
  lo * of_nat (List.length l) <= qsum l
  /\ qsum l <= hi * of_nat (List.length l).
Proof.
  induction 1 as [|x l [Hx1 Hx2] _ [IH1 IH2]]; cbn [qsum List.length].
  - change (of_nat 0) with 0. split; lra.
  - rewrite of_nat_S. split; lra.
Qed.

(** X24.  [get_statistics] never divides by zero.  Its total is the number
    of tracked applications, the counts by status add up to the total, and
    the number of active applications, which is missing exactly for the
    empty tracker, does not exceed the total. *)
Theorem get_statistics_counts (apps : Dict.t (V := Application.t)) :
  exists st,
    ApplicationTracker.get_statistics apps = Ok st
    /\ ApplicationTracker.total st = List.length apps
    /\ list_sum (map snd (ApplicationTracker.by_status st))
       = List.length apps
    /\ (apps = [] <-> ApplicationTracker.active_applications st = None)
    /\ (forall n,
          ApplicationTracker.active_applications st = Some n ->
          (n <= List.length apps)%nat).
Proof.
  unfold ApplicationTracker.get_statistics.
  destruct apps as [|e apps]; [|set (d := e :: apps)].
  { cbn. eexists. repeat split; try reflexivity; discriminate. }
  assert (Hn : ~ of_nat (List.length d) == 0).
  { assert (0 < of_nat (List.length d))
      by (apply of_nat_pos; unfold d; cbn [List.length]; lia).
    lra. }
  replace (List.length d =? 0)%nat with false by reflexivity.
  replace (is_nil (map _ (Dict.values d))) with false by reflexivity.
  replace (is_nil (map _ (Dict.values d))) with false by reflexivity.
  rewrite !pdiv_ok by exact Hn. cbn [bind].
  match goal with
  | |- context [(0 <? ?n)%nat] => destruct (0 <? n)%nat eqn:Ea
  end.
  - rewrite pdiv_ok.
    2:{ apply Nat.ltb_lt in Ea.
        match goal with
        | |- ~ of_nat ?n == 0 => pose proof (of_nat_pos n Ea)
        end. lra. }
    cbn [bind]. eexists. split; [reflexivity|].
    cbn [ApplicationTracker.total ApplicationTracker.by_status
         ApplicationTracker.active_applications].
    split; [reflexivity|]. split.
    { unfold ApplicationTracker.get_applications_by_status.
      rewrite by_status_sum, status_counts_total.
      unfold Dict.values. apply length_map. }
    split; [split; discriminate|].
    intros n H. injection H as <-.
    unfold ApplicationTracker.get_active_applications.
    rewrite <- (length_map snd d). apply filter_length_le.
  - cbn [bind]. eexists. split; [reflexivity|].
    cbn [ApplicationTracker.total ApplicationTracker.by_status
         ApplicationTracker.active_applications].
    split; [reflexivity|]. split.
    { unfold ApplicationTracker.get_applications_by_status.
      rewrite by_status_sum, status_counts_total.
      unfold Dict.values. apply length_map. }
    split; [split; discriminate|].
    intros n H. injection H as <-.
    unfold ApplicationTracker.get_active_applications.
    rewrite <- (length_map snd d). apply filter_length_le.
Qed.

Lemma get_statistics_nonempty (apps : Dict.t (V := Application.t)) :
  apps <> [] ->
  ApplicationTracker.get_statistics apps
  = Ok (ApplicationTracker.mkStatistics
          (List.length apps)
          (flat_map
             (fun status =>
                let count :=
                  List.length
                    (ApplicationTracker.get_applications_by_status apps status)
                in
                if (0 <? count)%nat then [(Status.value status, count)]
                else [])
             Status.all)
          (qsum (map (fun app =>
                        MatchScore.overall_score (Application.match_score app))
                     (Dict.values apps))
           / of_nat (List.length apps))
          (qsum (map (fun app =>
                        MatchScore.hiring_likelihood
                          (Application.match_score app))
                     (Dict.values apps))
           / of_nat (List.length apps))
          (if (0 <? List.length
                      (filter (fun app =>
                                 negb (Status.eqb (Application.status app)
                                                  IDENTIFIED))
                              (Dict.values apps)))%nat
           then of_nat (List.length (filter Application.response_received
                                            (Dict.values apps)))
                / of_nat (List.length
                            (filter (fun app =>
                                       negb (Status.eqb
                                               (Application.status app)
                                               IDENTIFIED))
                                    (Dict.values apps)))
                * 100
           else 0)
          (Some (List.length
                   (ApplicationTracker.get_active_applications apps)))).
Proof.
  intros Hne. unfold ApplicationTracker.get_statistics.
  destruct apps as [|e apps]; [congruence|]. set (d := e :: apps).
  assert (Hn : ~ of_nat (List.length d) == 0).
  { assert (0 < of_nat (List.length d))
      by (apply of_nat_pos; unfold d; cbn [List.length]; lia).
    lra. }
  replace (List.length d =? 0)%nat with false by reflexivity.
  replace (is_nil (map _ (Dict.values d))) with false by reflexivity.
  replace (is_nil (map _ (Dict.values d))) with false by reflexivity.
  rewrite !pdiv_ok by exact Hn. cbn [bind].
  match goal with
  | |- context [(0 <? ?n)%nat] => destruct (0 <? n)%nat eqn:Ea
  end; [|reflexivity].
  rewrite pdiv_ok; [reflexivity|].
  apply Nat.ltb_lt in Ea.
  match goal with
  | |- ~ of_nat ?n == 0 => pose proof (of_nat_pos n Ea)
  end. lra.
Qed.

Lemma average_range (l : list Q) :
  l <> [] -> Forall (in_range 0 100) l ->
  in_range 0 100 (qsum l / of_nat (List.length l)).
Proof.
  intros Hne H. destruct (qsum_range 0 100 l H) as [H1 H2].
  assert (Hp : 0 < of_nat (List.length l)).
  { apply of_nat_pos. destruct l; [congruence | cbn [List.length]; lia]. }
  split.
  - apply Qle_shift_div_l; [exact Hp | lra].
  - apply Qle_shift_div_r; [exact Hp | lra].
Qed.

(** X25.  When the overall scores and the hiring likelihoods of the
    tracked applications lie in [0, 100], so do the two averages of
    [get_statistics]; and when every application with a response has left
    the status IDENTIFIED, the response rate lies in [0, 100] too. *)
Theorem get_statistics_bounds (apps : Dict.t (V := Application.t))
  (st : ApplicationTracker.statistics) :
  ApplicationTracker.get_statistics apps = Ok st ->
  Forall (fun a =>
            in_range 0 100 (MatchScore.overall_score
                              (Application.match_score a))
            /\ in_range 0 100 (MatchScore.hiring_likelihood
                                 (Application.match_score a)))
         (Dict.values apps) ->
  in_range 0 100 (ApplicationTracker.average_match_score st)
  /\ in_range 0 100 (ApplicationTracker.average_hiring_likelihood st)
  /\ (responses_follow_applications (Dict.values apps) ->
      in_range 0 100 (ApplicationTracker.response_rate st)).
Proof.
  intros Hst Hs.
  assert (Hcase : apps = [] \/ apps <> [])
    by (destruct apps; [left | right]; congruence).
  destruct Hcase as [-> | Hne].
  { cbn in Hst. injection Hst as <-. cbn. repeat split; intros; lra. }
  rewrite (get_statistics_nonempty apps Hne) in Hst.
  injection Hst as <-.
  cbn [ApplicationTracker.average_match_score
       ApplicationTracker.average_hiring_likelihood
       ApplicationTracker.response_rate].
  assert (Hlen : forall f : Application.t -> Q,
            List.length (map f (Dict.values apps)) = List.length apps).
  { intros f. unfold Dict.values. now rewrite !length_map. }
  assert (Hmap : forall f : Application.t -> Q,
            map f (Dict.values apps) <> []).
  { intros f Hf. apply map_eq_nil in Hf. unfold Dict.values in Hf.
    apply map_eq_nil in Hf. contradiction. }
  split; [|split].
  - rewrite <- (Hlen (fun app => MatchScore.overall_score
                                    (Application.match_score app))).
    apply average_range; [apply Hmap|].
    apply Forall_map. revert Hs. apply Forall_impl. intros a [H _]. exact H.
  - rewrite <- (Hlen (fun app => MatchScore.hiring_likelihood
                                    (Application.match_score app))).
    apply average_range; [apply Hmap|].
    apply Forall_map. revert Hs. apply Forall_impl. intros a [_ H]. exact H.
  - intros Hr.
    match goal with
    | |- context [(0 <? ?n)%nat] => destruct (0 <? n)%nat eqn:Ea
    end; [|split; lra].
    apply Nat.ltb_lt in Ea.
    match goal with
    | |- in_range 0 100 (of_nat ?r / of_nat ?a * 100) =>
        assert (Hq : 0 <= of_nat r / of_nat a <= 1)
    end.
    { apply Qdiv_bounds.
      - apply of_nat_nonneg.
      - apply of_nat_le. apply filter_length_le_filter.
        intros a Ha Hresp. apply negb_true_iff, status_eqb_neq.
        unfold responses_follow_applications in Hr.
        rewrite Forall_forall in Hr. now apply Hr.
      - now apply of_nat_pos. }
    destruct Hq. split; lra.
Qed.

Lemma get_statistics_bounds_witness :
  exists st,
    ApplicationTracker.get_statistics Sample.tracker = Ok st
    /\ in_range 0 100 (ApplicationTracker.average_match_score st)
    /\ in_range 0 100 (ApplicationTracker.response_rate st).
Proof.
  destruct (ApplicationTracker.get_statistics Sample.tracker) as [st|]
    eqn:E; [|vm_compute in E; discriminate].
  exists st. split; [reflexivity|].
  destruct (get_statistics_bounds Sample.tracker st E) as (H1 & _ & H3).
  - repeat constructor; vm_compute; discriminate.
  - split; [exact H1|]. apply H3.
    repeat constructor; vm_compute; intros; discriminate.
Defined.

(** ** Top opportunities and searches *)

Lemma opportunity_key (sort_by : string) :
  JobMatcher.get ApplicationTracker.sort_keys sort_by
    (JobMatcher.get ApplicationTracker.sort_keys "hiring_likelihood"
       ApplicationTracker.by_hiring_likelihood)
  = opportunity_score sort_by.
Proof.
  unfold JobMatcher.get, ApplicationTracker.sort_keys, opportunity_score.
  cbn [find fst snd].
  rewrite !(String.eqb_sym _ sort_by).
  destruct (String.eqb sort_by "hiring_likelihood") eqn:E1.
  - apply String.eqb_eq in E1. subst sort_by. reflexivity.
  - destruct (String.eqb sort_by "overall_score"); [reflexivity|].
    destruct (String.eqb sort_by "compensation"); [reflexivity|].
    destruct (String.eqb sort_by "skill_match"); reflexivity.
Qed.

Lemma firstn_sorted {A : Type} (R : A -> A -> Prop) (n : nat) (l : list A) :
  StronglySorted R l -> StronglySorted R (firstn n l).
Proof.
  intros H. revert n. induction H as [|a l Hs IH Ha]; intros n.
  - rewrite firstn_nil. constructor.
  - destruct n as [|n]; cbn [firstn]; constructor; [apply IH|].
    rewrite Forall_forall in *. intros x Hx. apply Ha.
    now apply firstn_incl in Hx.
Qed.

Lemma among_inactive (a : Application.t) :
  Status.among (Application.status a) ApplicationTracker.inactive_statuses
  = false <-> active a.
Proof.
  unfold active. destruct (Application.status a); cbn;
    split; intros H; try discriminate; try reflexivity;
    try (repeat split; discriminate);
    destruct H as (H1 & H2 & H3); congruence.
Qed.

(** X26.  [get_top_opportunities] returns tracked applications that are
    active (not rejected, withdrawn or closed by an offer), in descending
    order of the chosen score, the best ones first and at most [limit] of
    them for a limit that is not negative; a sort key that it does not know
    means the hiring likelihood. *)
Theorem top_opportunities_sorted (apps : Dict.t (V := Application.t))
  (limit : Z) (sort_by : string) :
  (forall a,
     In a (ApplicationTracker.get_top_opportunities apps limit sort_by) ->
     In a (Dict.values apps) /\ active a)
  /\ StronglySorted
       (fun a b => opportunity_score sort_by b <= opportunity_score sort_by a)
       (ApplicationTracker.get_top_opportunities apps limit sort_by)
  /\ (exists rest,
        Permutation
          (ApplicationTracker.get_top_opportunities apps limit sort_by
           ++ rest)%list
          (ApplicationTracker.get_active_applications apps)
        /\ Forall
             (fun shown =>
                Forall (fun hidden =>
                          opportunity_score sort_by hidden
                          <= opportunity_score sort_by shown) rest)
             (ApplicationTracker.get_top_opportunities apps limit sort_by))
  /\ ((0 <= limit)%Z ->
      List.length (ApplicationTracker.get_top_opportunities apps limit sort_by)
      = Nat.min (Z.to_nat limit)
                (List.length (ApplicationTracker.get_active_applications apps)))
  /\ (~ In sort_by ["hiring_likelihood"; "overall_score"; "compensation";
                    "skill_match"] ->
      ApplicationTracker.get_top_opportunities apps limit sort_by
      = ApplicationTracker.get_top_opportunities apps limit
          "hiring_likelihood").
Proof.
  unfold ApplicationTracker.get_top_opportunities, Seq.sorted_reverse.
  rewrite !opportunity_key.
  set (act := ApplicationTracker.get_active_applications apps).
  set (key := opportunity_score sort_by).
  pose proof (sort_reverse_perm key act) as Hperm.
  pose proof (sort_reverse_sorted key act) as Hsort.
  split; [|split; [|split; [|split]]].
  - intros a Ha. apply slice_to_In in Ha.
    apply (Permutation_in _ (Permutation_sym Hperm)) in Ha.
    unfold act, ApplicationTracker.get_active_applications in Ha.
    apply filter_In in Ha. destruct Ha as [Hin Hact]. split; [exact Hin|].
    apply among_inactive. now apply negb_true_iff.
  - unfold Seq.slice_to. destruct (0 <=? limit)%Z; now apply firstn_sorted.
  - destruct (slice_to_prefix limit (sort_reverse key act)) as [rest Hrest].
    exists rest. split.
    + rewrite <- Hrest. now apply Permutation_sym.
    + apply (sorted_prefix_best (fun a b => key b <= key a)).
      now rewrite <- Hrest.
  - intros Hl. rewrite slice_to_length by exact Hl.
    now rewrite <- (Permutation_length Hperm).
  - intros Hk. f_equal. f_equal. unfold key, opportunity_score.
    cbn [In] in Hk.
    destruct (String.eqb sort_by "overall_score") eqn:E1;
      [apply String.eqb_eq in E1; exfalso; apply Hk; subst; auto 6|].
    destruct (String.eqb sort_by "compensation") eqn:E2;
      [apply String.eqb_eq in E2; exfalso; apply Hk; subst; auto 6|].
    destruct (String.eqb sort_by "skill_match") eqn:E3;
      [apply String.eqb_eq in E3; exfalso; apply Hk; subst; auto 6|].
    reflexivity.
Qed.

(** X27.  [search_applications] returns, in the order of the tracker,
    exactly the tracked applications that pass every filter that is given:
    a company and a title that is not empty must occur in the company and
    the title of the job, up to letter case; a minimum score, also 0, bounds
    the overall score from below; a status must be the status of the
    application. *)
Theorem search_applications_filters (apps : Dict.t (V := Application.t))
  (company title : option string) (min_score : option Q)
  (status : option ApplicationStatus) :
  ApplicationTracker.search_applications apps company title min_score status
  = filter
      (fun app =>
         (negb (ApplicationTracker.given company)
          || str_in (lower (ApplicationTracker.text_of company))
                    (lower (Job.company (Application.job app))))
         && (negb (ApplicationTracker.given title)
             || str_in (lower (ApplicationTracker.text_of title))
                       (lower (Job.title (Application.job app))))
         && match min_score with
            | Some m => Qleb m (MatchScore.overall_score
                                  (Application.match_score app))
            | None => true
            end
         && match status with
            | Some st => Status.eqb (Application.status app) st
            | None => true
            end)
      (Dict.values apps).
Proof.
  unfold ApplicationTracker.search_applications.
  assert (Hff : forall (f g : Application.t -> bool) l,
            filter g (filter f l) = filter (fun x => f x && g x) l).
  { intros f g l. induction l as [|x l IH]; cbn [filter]; [reflexivity|].
    destruct (f x); cbn [filter andb]; [now rewrite IH | exact IH]. }
  assert (Hid : forall l : list Application.t, l = filter (fun _ => true) l).
  { intros l. induction l as [|x l IH]; cbn [filter]; congruence. }
  destruct (ApplicationTracker.given company),
    (ApplicationTracker.given title), min_score, status;
    cbn [negb orb];
    rewrite ?Hff; try rewrite (Hid (Dict.values apps)) at 1;
    rewrite ?Hff; apply filter_ext; intros x;
    rewrite ?andb_assoc, ?andb_true_r, ?andb_true_l; reflexivity.
Qed.

(** X18.  The jobs that [JobSearchProvider.search_for_profile] returns are
    jobs that its searches found, no two of them with the same identifier,
    and at most [limit] of them for a limit that is not negative. *)
Theorem unique_by_id_deduplicated (jobs : list Job.t) (limit : Z) :
  NoDup (map Job.id (Provider.unique_by_id jobs limit))
  /\ (forall j, In j (Provider.unique_by_id jobs limit) -> In j jobs)
  /\ ((0 <= limit)%Z ->
      (List.length (Provider.unique_by_id jobs limit) <= Z.to_nat limit)%nat)
  /\ ((Z.of_nat (List.length jobs) <= limit)%Z ->
      forall j,
        In j jobs ->
        exists j', In j' (Provider.unique_by_id jobs limit)
                   /\ Job.id j' = Job.id j).
Proof.
  unfold Provider.unique_by_id.
  destruct (unique_from_keys Job.id [] jobs) as [Hn Hi].
  repeat split.
  - rewrite slice_to_map. unfold Seq.slice_to.
    destruct (0 <=? limit)%Z; now apply firstn_NoDup.
  - intros j Hj. apply slice_to_In in Hj. now apply Hi.
  - intros Hl. rewrite slice_to_length by exact Hl. lia.
  - intros Hl j Hj. rewrite slice_to_all.
    + destruct (unique_from_covers Job.id [] jobs j Hj) as [[] | H].
      apply in_map_iff in H. destruct H as (j' & Hid & Hin).
      now exists j'.
    + pose proof (unique_from_length Job.id [] jobs). lia.
Qed.

(** X23.  [add_interview] on a tracked application appends the date,
    sets the status INTERVIEW_SCHEDULED and marks a response as received,
    and it leaves the date of application, the date of the response and the
    time of the last update as they were; an unknown identifier gives
    [None] and leaves the tracker as it is. *)
Theorem add_interview_effect (isoformat : datetime -> string)
  (apps : Dict.t (V := Application.t)) (now : datetime) (k : string)
  (interview_date : datetime) (note : option string) :
  (ApplicationTracker.get_application apps k = None ->
   ApplicationTracker.add_interview isoformat apps now k interview_date note
   = (apps, None))
  /\ (forall a,
        ApplicationTracker.get_application apps k = Some a ->
        exists a',
          snd (ApplicationTracker.add_interview isoformat apps now k
                 interview_date note) = Some a'
          /\ ApplicationTracker.get_application
               (fst (ApplicationTracker.add_interview isoformat apps now k
                       interview_date note)) k = Some a'
          /\ Application.interview_dates a'
             = (Application.interview_dates a ++ [interview_date])%list
          /\ Application.status a' = INTERVIEW_SCHEDULED
          /\ Application.response_received a' = true
          /\ Application.applied_at a' = Application.applied_at a
          /\ Application.response_date a' = Application.response_date a
          /\ Application.last_updated a' = Application.last_updated a).
Proof.
  unfold ApplicationTracker.add_interview,
    ApplicationTracker.get_application.
  destruct (Dict.get apps k) as [a|] eqn:E.
  - split; [discriminate|]. intros a0 H. injection H as <-.
    cbn [fst snd]. eexists. split; [reflexivity|].
    split; [apply get_set_same|].
    destruct (ApplicationTracker.given note); repeat split; reflexivity.
  - split; [reflexivity | discriminate].
Qed.
